(** * presence_analyzer.utils: interval math, loaders, aggregators, cache

    A shallow embedding of [src/presence_analyzer/utils.py] and the
    properties of it that the specification states.

    Conventions of the embedding.
    - Python [int] is [Z]; Python [float] is the kernel's binary64 [float].
    - A Python [dict] whose iteration order is observed is an association
      list without repeated keys, in iteration order ([dict_set] keeps the
      position of a key that is already there and appends a new one).
      The module-level [CACHE], whose order is never observed, is a [gmap].
    - A raised exception is the [Raise] case of [result].
    - [time()] readings and the stamps [now + duration] are binary64 floats,
      added and compared as the machine does. *)

From Stdlib Require Import ZArith QArith String Ascii.
From Stdlib Require Import PrimFloat SpecFloat FloatOps FloatAxioms.
From stdpp Require Import base list gmap strings.

Local Open Scope Z_scope.

(** ** Exceptions *)

Inductive exn : Type :=
  | ValueError | TypeError | KeyError | AttributeError
  | UnboundLocalError | IOError | XMLSyntaxError.

(** What evaluating a Python expression or running a block ends in. *)
Inductive outcome (A : Type) : Type :=
  | Ok (a : A)
  | Raise (e : exn).
Arguments Ok {A} a.
Arguments Raise {A} e.

#[global] Instance outcome_ret : MRet outcome := fun A a => Ok a.
#[global] Instance outcome_bind : MBind outcome := fun A B k m =>
  match m with
  | Ok a => k a
  | Raise e => Raise e
  end.

#[global] Instance outcome_fmap : FMap outcome := fun A B f m =>
  match m with
  | Ok a => Ok (f a)
  | Raise e => Raise e
  end.

(** [o.attr] where [o] may be [None]. *)
Definition attr_of {A} (o : option A) : outcome A :=
  match o with
  | Some a => Ok a
  | None => Raise AttributeError
  end.

(** [d[k]] as an expression. *)
Definition item_of {A} (o : option A) : outcome A :=
  match o with
  | Some a => Ok a
  | None => Raise KeyError
  end.

(** Reading a local variable that may not have been assigned yet. *)
Definition local_of {A} (o : option A) : outcome A :=
  match o with
  | Some a => Ok a
  | None => Raise UnboundLocalError
  end.

(** ** Dictionaries in iteration order *)

(** [dict K V], as a type. *)
Abbreviation dict K V := (list (K * V)).

Section Dict.
Context {K V : Type} `{EqDecision K}.

Fixpoint dict_get (k : K) (d : dict K V) : option V :=
  match d with
  | [] => None
  | (k', v) :: d' => if decide (k = k') then Some v else dict_get k d'
  end.

(** [d[k] = v] *)
Fixpoint dict_set (k : K) (v : V) (d : dict K V) : dict K V :=
  match d with
  | [] => [(k, v)]
  | (k', v') :: d' =>
      if decide (k = k') then (k', v) :: d' else (k', v') :: dict_set k v d'
  end.

(** In-place change of [d[k]], for a key that is present. *)
Fixpoint dict_alter (f : V -> V) (k : K) (d : dict K V) : dict K V :=
  match d with
  | [] => []
  | (k', v) :: d' =>
      if decide (k = k') then (k', f v) :: d' else (k', v) :: dict_alter f k d'
  end.

End Dict.

(** ** [datetime.date] and [datetime.time] *)

Module datetime.

Record date : Type := Date { year : Z; month : Z; day : Z }.

(** A time of day as [strptime(_, '%H:%M:%S').time()] builds it: the
    microsecond is always 0 and no time zone is attached, so the three
    fields below are the whole value. *)
Record time : Type := Time { hour : Z; minute : Z; second : Z }.

#[global] Instance date_eq_dec : EqDecision date.
Proof. solve_decision. Defined.
#[global] Instance time_eq_dec : EqDecision time.
Proof. solve_decision. Defined.

Definition _is_leap (y : Z) : bool :=
  (y mod 4 =? 0) && (negb (y mod 100 =? 0) || (y mod 400 =? 0)).

Definition _days_in_month (y m : Z) : Z :=
  if (m =? 2) && _is_leap y then 29
  else nth (Z.to_nat m) [0; 31; 28; 31; 30; 31; 30; 31; 31; 30; 31; 30; 31] 0.

Definition _days_before_year (y : Z) : Z :=
  let y := y - 1 in
  y * 365 + y / 4 - y / 100 + y / 400.

Definition _days_before_month (y m : Z) : Z :=
  nth (Z.to_nat m) [0; 0; 31; 59; 90; 120; 151; 181; 212; 243; 273; 304; 334] 0
  + (if (2 <? m) && _is_leap y then 1 else 0).

Definition toordinal (d : date) : Z :=
  _days_before_year (year d) + _days_before_month (year d) (month d) + day d.

(** Monday is 0, Sunday is 6. *)
Definition weekday (d : date) : Z := (toordinal d + 6) mod 7.

(** What the constructors [date(y, m, d)] and [time(h, m, s)] accept. *)
Definition valid_date (d : date) : bool :=
  (1 <=? year d) && (year d <=? 9999) &&
  (1 <=? month d) && (month d <=? 12) &&
  (1 <=? day d) && (day d <=? _days_in_month (year d) (month d)).

Definition valid_time (t : time) : bool :=
  (0 <=? hour t) && (hour t <? 24) &&
  (0 <=? minute t) && (minute t <? 60) &&
  (0 <=? second t) && (second t <? 60).

(** [a < b] on times of day. *)
Definition time_lt (a b : time) : Prop :=
  hour a < hour b \/
  (hour a = hour b /\
   (minute a < minute b \/ (minute a = minute b /\ second a < second b))).

End datetime.

(** A dict with exactly the keys ['start'] and ['end']. *)
Record start_end (A : Type) : Type := StartEnd { start : A; end_ : A }.
Arguments StartEnd {A} start end_.
Arguments start {A} s.
Arguments end_ {A} s.

#[global] Instance start_end_eq_dec `{EqDecision A} : EqDecision (start_end A).
Proof. solve_decision. Defined.

(** One user's records, [{date: {'start': time, 'end': time}}]. *)
Abbreviation presence := (dict datetime.date (start_end datetime.time)).

(** The attendance data, [{user_id: {date: {'start': .., 'end': ..}}}]. *)
Abbreviation attendance := (dict Z presence).

(** ** Numbers *)

Inductive number : Type :=
  | PyInt (z : Z)
  | PyFloat (f : float).

(** [float(z)]: the nearest binary64, ties to even. (Python raises
    OverflowError beyond the binary64 range, where this gives an infinity;
    sums of seconds since midnight stay far below it.) *)
Definition float_of_Z (z : Z) : float :=
  SF2Prim
    match z with
    | Z0 => S754_zero false
    | Zpos _ => binary_normalize prec emax z 0 false
    | Zneg _ => binary_normalize prec emax z 0 true
    end.

(** [x == z] for a float [x] and an int [z]: Python compares the exact
    values. *)
Definition float_eq_int (x : float) (z : Z) : bool :=
  match Prim2SF x with
  | S754_zero _ => z =? 0
  | S754_finite s m e =>
      let sg := if s then -1 else 1 in
      if 0 <=? e then z =? sg * (Zpos m * 2 ^ e)
      else (Zpos m mod 2 ^ (- e) =? 0) && (z =? sg * (Zpos m / 2 ^ (- e)))
  | _ => false
  end.

(** [a == b] on numbers. *)
Definition number_eqb (a b : number) : bool :=
  match a, b with
  | PyInt x, PyInt y => x =? y
  | PyFloat x, PyFloat y => PrimFloat.eqb x y
  | PyFloat x, PyInt y => float_eq_int x y
  | PyInt x, PyFloat y => float_eq_int y x
  end.

Definition sum (items : list Z) : Z := foldl Z.add 0 items.

Definition len {A} (items : list A) : Z := Z.of_nat (length items).

(** ** Interval math *)

Definition seconds_since_midnight (time_to_calc : datetime.time) : Z :=
  datetime.hour time_to_calc * 3600 + datetime.minute time_to_calc * 60
  + datetime.second time_to_calc.

Definition interval (start end_ : datetime.time) : Z :=
  seconds_since_midnight end_ - seconds_since_midnight start.

Definition mean (items : list Z) : number :=
  if 0 <? len items
  then PyFloat (float_of_Z (sum items) / float_of_Z (len items))
  else PyInt 0.

(** ** Aggregators *)

(** [result[i].append(x)]; [i] is a valid index wherever this is used. *)
Definition append_at (i : nat) (x : Z) (result : list (list Z)) : list (list Z) :=
  alter (fun l => l ++ [x]) i result.

Definition group_by_weekday (items : presence) : list (list Z) :=
  foldl
    (fun result '(date, entry) =>
       append_at (Z.to_nat (datetime.weekday date))
                 (interval (start entry) (end_ entry)) result)
    [[]; []; []; []; []; []; []]
    items.

Definition range7 : list Z := [0; 1; 2; 3; 4; 5; 6].

(** The first loop of [mean_time_of_presence]: the seconds since midnight
    of the starts and of the ends, collected by weekday. *)
Definition mean_time_of_presence_samples (items : presence)
  : dict Z (start_end (list Z)) :=
  foldl
    (fun result '(date, entry) =>
       let result :=
         dict_alter
           (fun r => StartEnd (start r ++ [seconds_since_midnight (start entry)]) (end_ r))
           (datetime.weekday date) result in
       dict_alter
         (fun r => StartEnd (start r) (end_ r ++ [seconds_since_midnight (end_ entry)]))
         (datetime.weekday date) result)
    ((fun i => (i, StartEnd [] [])) <$> range7) items.

Definition mean_time_of_presence (items : presence) : dict Z (start_end number) :=
  (fun '(day, r) => (day, StartEnd (mean (start r)) (mean (end_ r))))
    <$> mean_time_of_presence_samples items.

(** ** Library parsers

    [int(s)] and [datetime.strptime(s, fmt)] are library code. The models
    below follow CPython on ASCII input: [int] strips surrounding white
    space and reads an optional sign and decimal digits; [strptime] reads
    each numeric field as one or two digits (four for [%Y]) within the
    field's range, requires the whole string to be consumed, and then
    builds the value, which checks the day against the month's length and
    the second against 59. Every failure is a [ValueError]. (Outside
    ASCII digits the interpreters differ: recent ones also take
    underscores between digits and digits of other scripts, and refuse
    numerals of more than 4300 digits. The properties of the loaders are
    stated through what the parsers return, not through which strings
    they accept.) *)

Definition digit_of (c : ascii) : option Z :=
  let n := Z.of_N (N_of_ascii c) in
  if (48 <=? n) && (n <=? 57) then Some (n - 48) else None.

Fixpoint digits_value (acc : Z) (cs : list ascii) : option Z :=
  match cs with
  | [] => Some acc
  | c :: cs' => d ← digit_of c; digits_value (acc * 10 + d) cs'
  end.

(** A field of at least [lo] and at most [hi] decimal digits. *)
Definition field (lo hi : nat) (cs : list ascii) : option Z :=
  if decide (lo <= length cs <= hi)%nat then digits_value 0 cs else None.

Definition is_space (c : ascii) : bool :=
  let n := Z.of_N (N_of_ascii c) in
  (n =? 32) || ((9 <=? n) && (n <=? 13)).

Fixpoint lstrip (cs : list ascii) : list ascii :=
  match cs with
  | c :: cs' => if is_space c then lstrip cs' else cs
  | [] => []
  end.

Definition strip (cs : list ascii) : list ascii :=
  rev (lstrip (rev (lstrip cs))).

Definition of_option {A} (o : option A) : outcome A :=
  match o with
  | Some a => Ok a
  | None => Raise ValueError
  end.

(** [int(s)] *)
Definition py_int (s : string) : outcome Z :=
  of_option
    match strip (list_ascii_of_string s) with
    | "-"%char :: ds => Z.opp <$> field 1 (length ds) ds
    | "+"%char :: ds => field 1 (length ds) ds
    | ds => field 1 (length ds) ds
    end.

Fixpoint split_on (sep : ascii) (cs : list ascii) : list (list ascii) :=
  match cs with
  | [] => [[]]
  | c :: cs' =>
      if decide (c = sep) then [] :: split_on sep cs'
      else match split_on sep cs' with
           | [] => [[c]]
           | w :: ws => (c :: w) :: ws
           end
  end.

Definition in_range (lo hi : Z) (z : Z) : option Z :=
  if (lo <=? z) && (z <=? hi) then Some z else None.

(** The day field of [%d] also accepts a space followed by one digit. *)
Definition day_field (cs : list ascii) : option Z :=
  match cs with
  | [" "%char; c] => digit_of c
  | _ => field 1 2 cs
  end.

(** [datetime.strptime(s, '%Y-%m-%d').date()] *)
Definition strptime_date (s : string) : outcome datetime.date :=
  of_option
    match split_on "-" (list_ascii_of_string s) with
    | [y; m; d] =>
        y ← field 4 4 y;
        m ← field 1 2 m ≫= in_range 1 12;
        d ← day_field d ≫= in_range 1 31;
        let date := datetime.Date y m d in
        if datetime.valid_date date then Some date else None
    | _ => None
    end.

(** [datetime.strptime(s, '%H:%M:%S').time()] *)
Definition strptime_time (s : string) : outcome datetime.time :=
  of_option
    match split_on ":" (list_ascii_of_string s) with
    | [h; m; sec] =>
        h ← field 1 2 h ≫= in_range 0 23;
        m ← field 1 2 m ≫= in_range 0 59;
        sec ← field 1 2 sec ≫= in_range 0 61;
        let time := datetime.Time h m sec in
        if datetime.valid_time time then Some time else None
    | _ => None
    end.

(** ** Attendance loader *)

(** The local variables of [get_data] that the loop assigns; [None] is a
    variable not assigned yet. *)
Record frame : Type := Frame {
  user_id : option Z;
  date : option datetime.date;
  v_start : option datetime.time;
  v_end : option datetime.time
}.

(** The state the loop threads: the dict being built, the locals, and the
    row indices handed to [log.debug]. *)
Record loop_state : Type := LoopState {
  data : attendance;
  locals : frame;
  debug_log : list nat
}.

(** The body of the [try]: four assignments in order; the first that
    raises ends the block, and the assignments made before it stay. *)
Definition try_body (row0 row1 row2 row3 : string) (fr : frame) : frame * outcome () :=
  match py_int row0 with
  | Raise e => (fr, Raise e)
  | Ok u =>
      let fr := Frame (Some u) (date fr) (v_start fr) (v_end fr) in
      match strptime_date row1 with
      | Raise e => (fr, Raise e)
      | Ok d =>
          let fr := Frame (user_id fr) (Some d) (v_start fr) (v_end fr) in
          match strptime_time row2 with
          | Raise e => (fr, Raise e)
          | Ok s =>
              let fr := Frame (user_id fr) (date fr) (Some s) (v_end fr) in
              match strptime_time row3 with
              | Raise e => (fr, Raise e)
              | Ok e => (Frame (user_id fr) (date fr) (v_start fr) (Some e), Ok ())
              end
          end
      end
  end.

(** [data.setdefault(user_id, {})[date] = {'start': start, 'end': end}] *)
Definition store (fr : frame) (data : attendance) : outcome attendance :=
  s ← local_of (v_start fr);
  e ← local_of (v_end fr);
  u ← local_of (user_id fr);
  d ← local_of (date fr);
  Ok (dict_set u (dict_set d (StartEnd s e) (default [] (dict_get u data))) data).

(** One iteration of [for i, row in enumerate(presence_reader)]. *)
Definition get_data_row (i : nat) (row : list string) (st : loop_state)
  : outcome loop_state :=
  match row with
  | [row0; row1; row2; row3] =>
      let '(fr, r) := try_body row0 row1 row2 row3 (locals st) in
      log ← match r with
            | Ok _ => Ok (debug_log st)
            | Raise ValueError | Raise TypeError => Ok (debug_log st ++ [i])
            | Raise e => Raise e
            end;
      data ← store fr (data st);
      Ok (LoopState data fr log)
  | _ => Ok st
  end.

Fixpoint get_data_rows (i : nat) (rows : list (list string)) (st : loop_state)
  : outcome loop_state :=
  match rows with
  | [] => Ok st
  | row :: rows' => st' ← get_data_row i row st; get_data_rows (S i) rows' st'
  end.

(** The loop of [get_data] over the rows the CSV reader yields. *)
Definition get_data_loop (rows : list (list string)) : outcome loop_state :=
  get_data_rows 0 rows (LoopState [] (Frame None None None None) []).

(** ** Directory loader *)

(** An element of the parsed document, as [lxml.etree] presents it. *)
#[warnings="-register-all"]
Inductive element : Type :=
  Element {
    tag : string;
    attrib : dict string string;
    text : option string;
    children : list element
  }.

(** [e.find(name)]: the first child with that tag, or [None]. *)
Definition find (name : string) (e : element) : option element :=
  snd <$> list_find (fun c => tag c = name) (children e).

(** One directory entry, [{'avatar': url, 'name': name}]. *)
Record user_info : Type := UserInfo { avatar : string; name : option string }.

Abbreviation directory := (dict Z user_info).

(** How [str.format] renders a field: the text, or [None] as "None". *)
Definition format_field (o : option string) : string := default "None"%string o.

(** ['{protocol}://{serv}:{port}{url}'.format(...)] *)
Definition format_avatar (protocol serv port url : option string) : string :=
  (format_field protocol ++ "://" ++ format_field serv ++ ":"
   ++ format_field port ++ format_field url)%string.

(** [e.find(name).text], where [e] itself may be [None]. *)
Definition find_text (e : option element) (name : string) : outcome (option string) :=
  e ← attr_of e;
  child ← attr_of (find name e);
  Ok (text child).

(** The assignment in the loop of [get_data_xml]: the right-hand side is
    evaluated first (the format arguments in order, then the name), the
    key after it. *)
Definition get_data_xml_user (server : option element) (user : element)
  (result : directory) : outcome directory :=
  protocol ← find_text server "protocol";
  serv ← find_text server "host";
  port ← find_text server "port";
  url ← find_text (Some user) "avatar";
  name ← find_text (Some user) "name";
  id ← item_of (dict_get "id"%string (attrib user));
  key ← py_int id;
  Ok (dict_set key (UserInfo (format_avatar protocol serv port url) name) result).

Fixpoint get_data_xml_users (server : option element) (users : list element)
  (result : directory) : outcome directory :=
  match users with
  | [] => Ok result
  | user :: users' =>
      result' ← get_data_xml_user server user result;
      get_data_xml_users server users' result'
  end.

(** [get_data_xml] from the root of the parsed document on. *)
Definition get_data_xml_root (root : element) : outcome directory :=
  let server := find "server" root in
  let users := find "users" root in
  match users with
  | None => Raise TypeError
  | Some users => get_data_xml_users server (children users) []
  end.

(** ** The two sources *)

(** What the configured paths hold when a loader runs: the rows the CSV
    reader yields and the root of the parsed document, or the exception
    that opening or parsing the file raises. *)
Record world : Type := World {
  DATA_CSV : outcome (list (list string));
  DATA_XML : outcome element
}.

(** ** Cache layer *)

(** A cache entry, [{'time': stamp, 'value': result}]. The stamp is a
    float: [time()] returns one, and so does [now + duration]. *)
Record cache_entry (V : Type) : Type := CacheEntry { time : float; value : V }.
Arguments CacheEntry {V} time value.
Arguments time {V} c.
Arguments value {V} c.

(** [now + duration]: the int [duration] is converted to a float and the
    sum is rounded to binary64. *)
Definition expiry (now : float) (duration : Z) : float :=
  (now + float_of_Z duration)%float.

Section Memoize.
Context {Args V : Type}.

(** A function object: its [__name__] and what calling it does. *)
Record function : Type := Function {
  __name__ : string;
  call : Args -> world -> outcome V
}.

(** The process state a memoized call acts on: the module-level [CACHE]
    and, as a record of the effect of running a wrapped function, the
    calls made to wrapped functions so far. *)
Record process : Type := Process {
  CACHE : gmap string (cache_entry V);
  calls : list (string * Args)
}.

(** The wrapper [memoize(duration)(function)], called with the positional
    and keyword arguments [args], given the reading [now] of the clock
    and the world [w] that the call finds. The test
    [CACHE[key]['time'] > now] is the float comparison [now < time]. *)
Definition __memoize (duration : Z) (function : function) (args : Args)
  (now : float) (w : world) (st : process) : outcome V * process :=
  let key := __name__ function in
  let cached :=
    entry ← CACHE st !! key;
    if (now <? time entry)%float then Some (value entry) else None in
  match cached with
  | Some v => (Ok v, st)
  | None =>
      let st := Process (CACHE st) (calls st ++ [(key, args)]) in
      match call function args w with
      | Ok result =>
          (Ok result,
           Process (<[key := CacheEntry (expiry now duration) result]> (CACHE st)) (calls st))
      | Raise e => (Raise e, st)
      end
  end.

(** The decorator [memoize(duration)] hands [function] to [_memoize],
    which returns the wrapper [__memoize]. (The lock made by
    [memoize(duration)] plays no part in a sequential run.) *)
Definition _memoize (duration : Z) (function : function)
  : Args -> float -> world -> process -> outcome V * process :=
  __memoize duration function.

Definition memoize (duration : Z)
  : function -> Args -> float -> world -> process -> outcome V * process :=
  _memoize duration.

End Memoize.
Arguments function : clear implicits.
Arguments process : clear implicits.

(** What the cached loaders return. *)
Inductive loaded : Type :=
  | Attendance (data : attendance)
  | Users (result : directory).

(** [get_data], before decoration. *)
Definition get_data_function : function () loaded :=
  Function "get_data"
    (fun _ w => rows ← DATA_CSV w; st ← get_data_loop rows; Ok (Attendance (data st))).

(** [get_data_xml], before decoration. *)
Definition get_data_xml_function : function () loaded :=
  Function "get_data_xml"
    (fun _ w => root ← DATA_XML w; Users <$> get_data_xml_root root).

(** The decorated module-level names. *)
Definition get_data
  : float -> world -> process () loaded -> outcome loaded * process () loaded :=
  memoize 600 get_data_function ().

Definition get_data_xml
  : float -> world -> process () loaded -> outcome loaded * process () loaded :=
  memoize 600 get_data_xml_function ().

(** ** What the aggregators are compared with *)

(** The entries of [items] whose date falls on weekday [w], in the order
    [items] has them. *)
Definition on_weekday (w : Z) (items : presence) : presence :=
  filter (fun x => datetime.weekday x.1 = w) items.

(** The interval of one entry. *)
Definition interval_of (x : datetime.date * start_end datetime.time) : Z :=
  interval (start x.2) (end_ x.2).

Definition starts_on (w : Z) (items : presence) : list Z :=
  (fun x => seconds_since_midnight (start x.2)) <$> on_weekday w items.

Definition ends_on (w : Z) (items : presence) : list Z :=
  (fun x => seconds_since_midnight (end_ x.2)) <$> on_weekday w items.

(** ** What the directory loader is compared with *)

(** A well-formed document: a [server] child with [protocol], [host] and
    [port] children that have text, and a [users] child whose children
    each have an [id] attribute that [int] accepts, an [avatar] child
    with text and a [name] child. *)
Definition has_text (name : string) (e : element) : bool :=
  bool_decide (is_Some (find name e ≫= text)).

Definition well_formed_user (user : element) : bool :=
  has_text "avatar" user
  && bool_decide (is_Some (find "name" user))
  && match dict_get "id"%string (attrib user) with
     | Some id => match py_int id with Ok _ => true | Raise _ => false end
     | None => false
     end.

Definition well_formed (root : element) : bool :=
  match find "server" root, find "users" root with
  | Some server, Some users =>
      has_text "protocol" server && has_text "host" server
      && has_text "port" server
      && forallb well_formed_user (children users)
  | _, _ => false
  end.

(** The text of the child [name] of [e] (empty when there is none). *)
Definition text_of (name : string) (e : element) : string :=
  default ""%string (find name e ≫= text).

(** The integer-parsed [id] attribute (0 when there is none). *)
Definition id_of (user : element) : Z :=
  match dict_get "id"%string (attrib user) ≫= (fun id => Some (py_int id)) with
  | Some (Ok id) => id
  | _ => 0
  end.

(** protocol + '://' + host + ':' + port, followed by the user's avatar
    path fragment. *)
Definition avatar_url (server user : element) : string :=
  (text_of "protocol" server ++ "://" ++ text_of "host" server ++ ":"
   ++ text_of "port" server ++ text_of "avatar" user)%string.

Definition entry_of (server user : element) : user_info :=
  UserInfo (avatar_url server user) (find "name" user ≫= text).

(** The document of the specification's example. *)
Definition example_document : element :=
  Element "intranet" [] None
    [Element "server" [] None
       [Element "host" [] (Some "example.com") [];
        Element "port" [] (Some "80") [];
        Element "protocol" [] (Some "http") []];
     Element "users" [] None
       [Element "user" [("id", "1")] None
          [Element "avatar" [] (Some "/api/images/users/1") [];
           Element "name" [] (Some "Jan K.") []]]]%string.

(** ** What the cache layer is compared with *)

(** No entry under [key] that is still valid at [now]: the test
    [CACHE[key]['time'] > now] fails, or there is no entry. *)
Definition stale {Args V : Type} (key : string) (now : float)
  (st : process Args V) : Prop :=
  forall entry, CACHE st !! key = Some entry -> (now <? time entry)%float = false.

(** A client calling a memoized function again and again: each call comes
    with its arguments, the clock reading and the world it finds. *)
Fixpoint run_calls {Args V : Type} (duration : Z) (f : function Args V)
  (cs : list (Args * float * world)) (st : process Args V)
  : list (outcome V) * process Args V :=
  match cs with
  | [] => ([], st)
  | (args, now, w) :: cs' =>
      let '(r, st') := __memoize duration f args now w st in
      let '(rs, st'') := run_calls duration f cs' st' in
      (r :: rs, st'')
  end.

(** A function whose result depends on its argument. *)
Definition example_square : function Z Z :=
  Function "square" (fun n _ => Ok (n * n)).

(** The exact value of a finite float, as a rational. *)
Definition float_to_Q (x : float) : option Q :=
  match Prim2SF x with
  | S754_zero _ => Some 0%Q
  | S754_finite s m e =>
      let n := if s then Zneg m else Zpos m in
      Some (if 0 <=? e then (n * 2 ^ e) # 1 else n # Z.to_pos (2 ^ (- e)))
  | _ => None
  end.

(** A clock reading whose sum with 600 is not a float: 2147483348 + 2^-22,
    printed 2147483348.0000002. *)
Definition edge_reading : float := (2147483348 + 0x1p-22)%float.

(** The rows, and what they load as, of the specification's example. *)
Definition example_rows : list (list string) :=
  [["1"; "2023-01-02"; "09:00:00"; "17:00:00"];
   ["1"; "2023-01-09"; "09:00:00"; "17:30:00"]]%string.

Definition example_presence : presence :=
  [(datetime.Date 2023 1 2, StartEnd (datetime.Time 9 0 0) (datetime.Time 17 0 0));
   (datetime.Date 2023 1 9, StartEnd (datetime.Time 9 0 0) (datetime.Time 17 30 0))].

Definition example_loaded : loaded := Attendance [(1, example_presence)].

(** ** Mean by month *)

(** The first loop of [mean_by_month]: the intervals collected by month,
    January at index 0. A [datetime.date] always has its month in 1..12,
    so [date.month-1] is a valid index. *)
Definition mean_by_month_samples (items : presence) : list (list Z) :=
  foldl
    (fun result '(date, entry) =>
       append_at (Z.to_nat (datetime.month date - 1))
                 (interval (start entry) (end_ entry)) result)
    (replicate 12 [])
    items.

Definition mean_by_month (items : presence) : list number :=
  mean <$> mean_by_month_samples items.

Definition range12 : list Z := [0; 1; 2; 3; 4; 5; 6; 7; 8; 9; 10; 11].

(** The entries of [items] dated in month [m] (1 for January), in the
    order [items] has them. *)
Definition in_month (m : Z) (items : presence) : presence :=
  filter (fun x => datetime.month x.1 = m) items.

(** Every date of [items] is one that [datetime.date] can hold. *)
Definition valid_dates (items : presence) : Prop :=
  Forall (fun x => datetime.valid_date x.1 = true) items.

(** ** What the attendance loader is compared with *)

(** A row as the four parsers read it: the user id, the date and the two
    times, or [None] when the row has not four fields or one of them does
    not parse. *)
Definition parse_row (row : list string)
  : option (Z * datetime.date * start_end datetime.time) :=
  match row with
  | [row0; row1; row2; row3] =>
      match py_int row0, strptime_date row1, strptime_time row2, strptime_time row3 with
      | Ok u, Ok d, Ok s, Ok e => Some (u, d, StartEnd s e)
      | _, _, _, _ => None
      end
  | _ => None
  end.

(** The rows that pass the test [len(row) != 4]. *)
Definition four_fields (rows : list (list string)) : list (list string) :=
  filter (fun row => length row = 4%nat) rows.

(** [data[u][d] = v], with [data[u]] created empty when it is missing. *)
Definition put (u : Z) (d : datetime.date) (v : start_end datetime.time)
  (data : attendance) : attendance :=
  dict_set u (dict_set d v (default [] (dict_get u data))) data.

Definition put_row (data : attendance)
  (r : Z * datetime.date * start_end datetime.time) : attendance :=
  put r.1.1 r.1.2 r.2 data.

(** [data[u][d]], when both keys are there. *)
Definition record_of (u : Z) (d : datetime.date) (data : attendance)
  : option (start_end datetime.time) :=
  dict_get u data ≫= dict_get d.

(** All four locals of the loop are assigned. *)
Definition bound (fr : frame) : Prop :=
  is_Some (user_id fr) /\ is_Some (date fr)
  /\ is_Some (v_start fr) /\ is_Some (v_end fr).

(** The indices, counted from [i], of the rows of four fields that do not
    parse. *)
Fixpoint failing_rows (i : nat) (rows : list (list string)) : list nat :=
  match rows with
  | [] => []
  | row :: rows' =>
      (if decide (length row = 4%nat /\ parse_row row = None) then [i] else [])
      ++ failing_rows (S i) rows'
  end.

(** What [get_data] guarantees about one stored record. *)
Definition valid_record (x : datetime.date * start_end datetime.time) : Prop :=
  datetime.valid_date x.1 = true
  /\ datetime.valid_time (start x.2) = true
  /\ datetime.valid_time (end_ x.2) = true.

(** The invariant of the loop: the user ids are distinct, no user has an
    empty dict, a user's dates are distinct, and every record holds a
    date and times that [datetime] accepts; so do the locals that are
    assigned. *)
Definition data_invariant (data : attendance) : Prop :=
  NoDup data.*1
  /\ Forall (fun x => x.2 <> [] /\ NoDup x.2.*1 /\ Forall valid_record x.2) data.

Definition frame_invariant (fr : frame) : Prop :=
  (forall d, date fr = Some d -> datetime.valid_date d = true)
  /\ (forall s, v_start fr = Some s -> datetime.valid_time s = true)
  /\ (forall e, v_end fr = Some e -> datetime.valid_time e = true).

(** ** What the directory loader needs *)

Definition has_child (name : string) (e : element) : bool :=
  bool_decide (is_Some (find name e)).

(** The [server] element is there and has the three children read from
    it. *)
Definition server_ok (server : option element) : bool :=
  match server with
  | Some server =>
      has_child "protocol" server && has_child "host" server
      && has_child "port" server
  | None => false
  end.

(** A user element with an [avatar] and a [name] child and an [id]
    attribute that [int] accepts. *)
Definition loadable_user (user : element) : bool :=
  has_child "avatar" user && has_child "name" user
  && match dict_get "id"%string (attrib user) with
     | Some id => match py_int id with Ok _ => true | Raise _ => false end
     | None => false
     end.

(** A document that [get_data_xml] can load: a [users] child, and, unless
    that has no children at all, a usable [server] child and only
    loadable users. *)
Definition loadable (root : element) : bool :=
  match find "users" root with
  | Some users =>
      match children users with
      | [] => true
      | _ :: _ =>
          server_ok (find "server" root)
          && forallb loadable_user (children users)
      end
  | None => false
  end.

(** ** What the cache holds for the two loaders *)

(** The entry under each loader's name, when there is one, holds what
    that loader returns. *)
Definition cache_typed (C : gmap string (cache_entry loaded)) : Prop :=
  (forall entry, C !! "get_data"%string = Some entry ->
     exists data, value entry = Attendance data)
  /\ (forall entry, C !! "get_data_xml"%string = Some entry ->
        exists result, value entry = Users result).

(** ** The CSV reader, row by row *)

(** The [for] statement pulls [csv.reader] one row at a time, outside the
    [try]: each pull yields a row or raises (a field over the size limit,
    a NUL byte, a decoding error), and what it raises leaves [get_data].
    A reader is given here by the outcomes of its pulls. *)
Fixpoint get_data_read (i : nat) (reader : list (outcome (list string)))
  (st : loop_state) : outcome loop_state :=
  match reader with
  | [] => Ok st
  | Raise e :: _ => Raise e
  | Ok row :: reader' =>
      st' ← get_data_row i row st; get_data_read (S i) reader' st'
  end.

Definition get_data_reader (reader : list (outcome (list string)))
  : outcome loop_state :=
  get_data_read 0 reader (LoopState [] (Frame None None None None) []).

(** The rows pulled before the reader raises. *)
Fixpoint yielded (reader : list (outcome (list string))) : list (list string) :=
  match reader with
  | Ok row :: reader' => row :: yielded reader'
  | _ => []
  end.

(** The exception of the first pull that raises, if one does. *)
Fixpoint reader_error (reader : list (outcome (list string))) : option exn :=
  match reader with
  | [] => None
  | Raise e :: _ => Some e
  | Ok _ :: reader' => reader_error reader'
  end.

(** * Properties *)

(** ** Dictionaries *)

Section DictFacts.
Context {K V : Type} `{EqDecision K}.
Implicit Types (d : dict K V) (k : K) (v : V).

Lemma dict_get_set_eq k v d : dict_get k (dict_set k v d) = Some v.
Proof.
  induction d as [|[k' v'] d IH]; simpl.
  - by rewrite decide_True.
  - destruct (decide (k = k')) as [->|Hne]; simpl.
    + by rewrite decide_True.
    + by rewrite decide_False.
Qed.

Lemma dict_get_set_ne k k' v d :
  k <> k' -> dict_get k' (dict_set k v d) = dict_get k' d.
Proof.
  intros Hne. induction d as [|[k0 v0] d IH]; simpl.
  - by rewrite decide_False.
  - destruct (decide (k = k0)) as [->|Hk]; simpl.
    + by rewrite !decide_False.
    + destruct (decide (k' = k0)); [done | apply IH].
Qed.

End DictFacts.

(** ** Interval math *)

Lemma valid_time_bounds t :
  datetime.valid_time t = true ->
  0 <= datetime.hour t < 24 /\ 0 <= datetime.minute t < 60
  /\ 0 <= datetime.second t < 60.
Proof. unfold datetime.valid_time. intros H. lia. Qed.

(** C7. For valid times of day, [interval(start, end)] is
    [seconds_since_midnight(end) - seconds_since_midnight(start)] with
    [seconds_since_midnight(t) = t.hour*3600 + t.minute*60 + t.second];
    the difference is returned as it is, and it is negative exactly when
    [end] is an earlier time of day than [start]. *)
Theorem interval_signed_difference (start end_ : datetime.time) :
  datetime.valid_time start = true ->
  datetime.valid_time end_ = true ->
  seconds_since_midnight start
    = datetime.hour start * 3600 + datetime.minute start * 60 + datetime.second start
  /\ interval start end_
    = seconds_since_midnight end_ - seconds_since_midnight start
  /\ (datetime.time_lt end_ start <-> interval start end_ < 0).
Proof.
  intros Hs He.
  apply valid_time_bounds in Hs, He.
  unfold interval, seconds_since_midnight, datetime.time_lt.
  split; [reflexivity|]. split; [reflexivity|]. lia.
Qed.

Lemma interval_signed_difference_witness :
  interval (datetime.Time 17 0 0) (datetime.Time 9 0 0)
    = seconds_since_midnight (datetime.Time 9 0 0)
      - seconds_since_midnight (datetime.Time 17 0 0)
  /\ interval (datetime.Time 17 0 0) (datetime.Time 9 0 0) < 0.
Proof.
  destruct (interval_signed_difference (datetime.Time 17 0 0) (datetime.Time 9 0 0))
    as (_ & Hdiff & Hneg); [reflexivity | reflexivity |].
  split; [exact Hdiff|]. apply Hneg. left. simpl. lia.
Defined.

(** ** Grouping by weekday *)

Lemma weekday_range d : 0 <= datetime.weekday d < 7.
Proof. unfold datetime.weekday. apply Z.mod_pos_bound. lia. Qed.

Lemma group_by_weekday_snoc items x :
  group_by_weekday (items ++ [x])
  = append_at (Z.to_nat (datetime.weekday x.1)) (interval_of x) (group_by_weekday items).
Proof. unfold group_by_weekday. rewrite foldl_snoc. by destruct x. Qed.

Lemma group_by_weekday_length items : length (group_by_weekday items) = 7%nat.
Proof.
  induction items as [|x items IH] using rev_ind; [reflexivity|].
  rewrite group_by_weekday_snoc. unfold append_at. by rewrite length_alter.
Qed.

Lemma group_by_weekday_lookup items (w : nat) :
  (w < 7)%nat ->
  group_by_weekday items !! w = Some (interval_of <$> on_weekday (Z.of_nat w) items).
Proof.
  intros Hw. induction items as [|x items IH] using rev_ind.
  - do 7 (destruct w as [|w]; [reflexivity|]). lia.
  - rewrite group_by_weekday_snoc. unfold append_at, on_weekday.
    rewrite filter_app, fmap_app. pose proof (weekday_range x.1) as Hr.
    destruct (decide (Z.to_nat (datetime.weekday x.1) = w)) as [<-|Hne].
    + rewrite list_lookup_alter_eq, IH.
      rewrite filter_cons_True by (simpl; lia). rewrite filter_nil. reflexivity.
    + rewrite list_lookup_alter_ne by done. rewrite IH.
      rewrite filter_cons_False by (simpl; lia). rewrite filter_nil.
      by rewrite app_nil_r.
Qed.

Lemma append_at_sum_length (i : nat) x (result : list (list Z)) :
  (i < length result)%nat ->
  sum_list (length <$> append_at i x result) = S (sum_list (length <$> result)).
Proof.
  unfold append_at. revert i.
  induction result as [|l result IH]; intros i Hi; simpl in *; [lia|].
  destruct i as [|i].
  - simpl. rewrite length_app. simpl. lia.
  - specialize (IH i ltac:(lia)). unfold alter, fmap in *. simpl in *. lia.
Qed.

Lemma append_at_concat (i : nat) x (result : list (list Z)) :
  (i < length result)%nat ->
  concat (append_at i x result) ≡ₚ x :: concat result.
Proof.
  unfold append_at. revert i.
  induction result as [|l result IH]; intros i Hi; simpl in *; [lia|].
  destruct i as [|i].
  - simpl. rewrite <- app_assoc. simpl. by rewrite <- Permutation_middle.
  - specialize (IH i ltac:(lia)). unfold alter in *. simpl.
    rewrite IH. by rewrite <- Permutation_middle.
Qed.

Lemma weekday_index d : (Z.to_nat (datetime.weekday d) < 7)%nat.
Proof. pose proof (weekday_range d). lia. Qed.

(** C5. [group_by_weekday] returns seven sequences, index 0 for Monday to
    index 6 for Sunday; the sequence at index [w] holds
    [interval(start, end)] of the entries dated on weekday [w], in the
    order in which the input iterates. For the rows
    [1,2023-01-02,09:00:00,17:00:00] and [1,2023-01-09,09:00:00,17:30:00],
    two Mondays, user 1 gets [[28800, 30600]] at index 0 and the empty
    sequence at every other index. *)
Theorem group_by_weekday_buckets (items : presence) :
  group_by_weekday items
    = (fun w => interval_of <$> on_weekday w items) <$> range7
  /\ exists st user_items,
      get_data_loop [["1"; "2023-01-02"; "09:00:00"; "17:00:00"];
                     ["1"; "2023-01-09"; "09:00:00"; "17:30:00"]]%string = Ok st
      /\ dict_get 1 (data st) = Some user_items
      /\ fst <$> user_items = [datetime.Date 2023 1 2; datetime.Date 2023 1 9]
      /\ datetime.weekday <$> (fst <$> user_items) = [0; 0]
      /\ group_by_weekday user_items = [[28800; 30600]; []; []; []; []; []; []].
Proof.
  split.
  - apply list_eq. intros w. destruct (decide (w < 7)%nat) as [Hw|Hw].
    + rewrite group_by_weekday_lookup by done.
      do 7 (destruct w as [|w]; [reflexivity|]). lia.
    + rewrite !lookup_ge_None_2; [done | simpl; lia |].
      rewrite group_by_weekday_length. lia.
  - eexists _, _. split; [vm_compute; reflexivity|].
    split; [vm_compute; reflexivity|]. by vm_compute.
Qed.

(** C10. [group_by_weekday] loses and repeats nothing: the seven lists
    hold as many intervals as the input has entries, all of them together
    are the intervals of the entries up to order, and an entry processed
    after [items] appends its one interval to the list at the index of its
    date's weekday and leaves the six other lists as they were. *)
Theorem group_by_weekday_partition (items : presence) :
  sum_list (length <$> group_by_weekday items) = length items
  /\ concat (group_by_weekday items) ≡ₚ interval_of <$> items
  /\ forall (x : datetime.date * start_end datetime.time) (w : nat),
      group_by_weekday (items ++ [x]) !! w
      = if decide (w = Z.to_nat (datetime.weekday x.1))
        then (fun l => l ++ [interval_of x]) <$> group_by_weekday items !! w
        else group_by_weekday items !! w.
Proof.
  split; [|split].
  - induction items as [|x items IH] using rev_ind; [reflexivity|].
    rewrite group_by_weekday_snoc, append_at_sum_length, IH.
    + rewrite length_app. simpl. lia.
    + rewrite group_by_weekday_length. apply weekday_index.
  - induction items as [|x items IH] using rev_ind; [reflexivity|].
    rewrite group_by_weekday_snoc, append_at_concat, IH.
    + rewrite fmap_app. simpl. by rewrite <- Permutation_cons_append.
    + rewrite group_by_weekday_length. apply weekday_index.
  - intros x w. rewrite group_by_weekday_snoc. unfold append_at.
    rewrite list_lookup_alter. by repeat case_decide; subst.
Qed.

(** ** Mean time of presence *)

Lemma dict_alter_range7 {A} (f : A -> A) (g : Z -> A) (k : Z) :
  dict_alter f k ((fun w => (w, g w)) <$> range7)
  = (fun w => (w, if decide (w = k) then f (g w) else g w)) <$> range7.
Proof.
  unfold range7. simpl.
  repeat (case_decide; simplify_eq; try reflexivity).
Qed.

Lemma samples_on_weekday (items : presence) :
  mean_time_of_presence_samples items
  = (fun w => (w, StartEnd (starts_on w items) (ends_on w items))) <$> range7.
Proof.
  unfold mean_time_of_presence_samples.
  induction items as [|[date entry] items IH] using rev_ind; [reflexivity|].
  rewrite foldl_snoc, IH. rewrite !dict_alter_range7.
  apply list_fmap_ext. intros _ w _. f_equal.
  unfold starts_on, ends_on, on_weekday.
  rewrite !filter_app, !fmap_app.
  destruct (decide (w = datetime.weekday date)) as [->|Hne]; simpl.
  - rewrite !filter_cons_True by done. by rewrite filter_nil.
  - rewrite !filter_cons_False by (simpl; congruence).
    by rewrite filter_nil, !app_nil_r.
Qed.

(** C6. [mean_time_of_presence] maps every weekday index 0..6 to the mean
    of the seconds since midnight of the starts, and of the ends, of the
    entries dated on that weekday, both 0 when the weekday has no entry.
    The mean is the one [mean] computes: 0 for an empty sequence and
    otherwise the sum divided by the length as floats, so
    [mean([10, 20, 30])] is [20.0]. A single Monday record from 09:00:00
    to 17:00:00 gives start 32400 and end 61200 at index 0 and 0, 0 at the
    indices 1 to 6. *)
Theorem mean_time_of_presence_by_weekday (items : presence) :
  mean_time_of_presence items
    = (fun w => (w, StartEnd (mean (starts_on w items)) (mean (ends_on w items))))
      <$> range7
  /\ (forall w, on_weekday w items = [] ->
        mean (starts_on w items) = PyInt 0 /\ mean (ends_on w items) = PyInt 0)
  /\ (forall l, l <> [] -> mean l = PyFloat (float_of_Z (sum l) / float_of_Z (len l)))
  /\ mean [] = PyInt 0
  /\ mean [10; 20; 30] = PyFloat 20
  /\ mean_time_of_presence
       [(datetime.Date 2023 1 2, StartEnd (datetime.Time 9 0 0) (datetime.Time 17 0 0))]
     = [(0, StartEnd (PyFloat 32400) (PyFloat 61200));
        (1, StartEnd (PyInt 0) (PyInt 0)); (2, StartEnd (PyInt 0) (PyInt 0));
        (3, StartEnd (PyInt 0) (PyInt 0)); (4, StartEnd (PyInt 0) (PyInt 0));
        (5, StartEnd (PyInt 0) (PyInt 0)); (6, StartEnd (PyInt 0) (PyInt 0))]
  /\ number_eqb (PyFloat 32400) (PyInt 32400) = true
  /\ number_eqb (PyFloat 61200) (PyInt 61200) = true.
Proof.
  split.
  - unfold mean_time_of_presence. by rewrite samples_on_weekday.
  - split; [by unfold starts_on, ends_on; intros w ->|].
    split; [by intros [|x l]|]. repeat split; by vm_compute.
Qed.

(** ** Directory loader *)

Section DictFold.
Context {A V : Type}.
Implicit Types (key : A -> Z) (val : A -> V) (d : dict Z V).

Lemma dict_get_foldl_absent key val (l : list A) d k :
  Forall (fun a => key a <> k) l ->
  dict_get k (foldl (fun acc a => dict_set (key a) (val a) acc) d l) = dict_get k d.
Proof.
  intros Hl. revert d. induction Hl as [|a l Ha _ IH]; intros d; simpl; [done|].
  rewrite IH. by apply dict_get_set_ne.
Qed.

Lemma dict_get_foldl_last key val (l : list A) d i a :
  l !! i = Some a ->
  (forall j b, (i < j)%nat -> l !! j = Some b -> key b <> key a) ->
  dict_get (key a) (foldl (fun acc a => dict_set (key a) (val a) acc) d l)
  = Some (val a).
Proof.
  intros Hi Hlater.
  apply list_elem_of_split_length in Hi as (l1 & l2 & -> & ->).
  rewrite foldl_app. simpl. rewrite dict_get_foldl_absent.
  - apply dict_get_set_eq.
  - apply Forall_lookup. intros j b Hj.
    apply (Hlater (length l1 + S j)%nat); [lia|].
    rewrite lookup_app_r by lia.
    replace (length l1 + S j - length l1)%nat with (S j) by lia. done.
Qed.
End DictFold.

Lemma find_text_has_text (e : element) (name : string) :
  has_text name e = true ->
  find_text (Some e) name = Ok (Some (text_of name e)).
Proof.
  unfold has_text, find_text, text_of. intros H%bool_decide_eq_true.
  simpl. destruct (find name e) as [child|]; simpl in *; [|by destruct H].
  destruct (text child); simpl; [done | by destruct H].
Qed.

Lemma get_data_xml_user_ok (server user : element) (result : directory) :
  has_text "protocol" server = true -> has_text "host" server = true ->
  has_text "port" server = true -> well_formed_user user = true ->
  get_data_xml_user (Some server) user result
  = Ok (dict_set (id_of user) (entry_of server user) result).
Proof.
  intros Hp Hh Hport Hu. unfold well_formed_user in Hu.
  apply andb_prop in Hu as [[Ha Hn]%andb_prop Hid].
  apply bool_decide_eq_true in Hn as [nm Hn].
  unfold get_data_xml_user.
  rewrite (find_text_has_text server "protocol"), (find_text_has_text server "host"),
    (find_text_has_text server "port"), (find_text_has_text user "avatar") by done.
  simpl.
  unfold entry_of, avatar_url, id_of, find_text. simpl. rewrite Hn. simpl.
  destruct (dict_get _ (attrib user)) as [id|]; [simpl|done].
  by destruct (py_int id).
Qed.

Lemma get_data_xml_users_ok (server : element) (users : list element)
  (result : directory) :
  has_text "protocol" server = true -> has_text "host" server = true ->
  has_text "port" server = true -> forallb well_formed_user users = true ->
  get_data_xml_users (Some server) users result
  = Ok (foldl (fun acc user => dict_set (id_of user) (entry_of server user) acc)
          result users).
Proof.
  intros Hp Hh Hport. revert result.
  induction users as [|user users IH]; intros result Hus; simpl in *; [done|].
  apply andb_prop in Hus as [Hu Hus].
  rewrite get_data_xml_user_ok by done. simpl. by apply IH.
Qed.

(** C8. On a well-formed document the loader returns a mapping that holds,
    for each user element, under the integer its [id] attribute parses
    to, the text of its [name] child and the avatar URL
    protocol + '://' + host + ':' + port followed by the text of its
    [avatar] child (the mapping is built by assigning the entries in
    document order, so of several elements with one id the last is the one
    found there). With protocol http, host example.com, port 80 and the
    fragment /api/images/users/1 the URL is
    http://example.com:80/api/images/users/1. *)
Theorem get_data_xml_records_users (root : element) :
  well_formed root = true ->
  exists server users result,
    find "server" root = Some server
    /\ find "users" root = Some users
    /\ get_data_xml_root root = Ok result
    /\ result = foldl (fun acc user => dict_set (id_of user) (entry_of server user) acc)
                  [] (children users)
    /\ (forall (i : nat) (user : element),
          children users !! i = Some user ->
          (forall (j : nat) (later : element),
              (i < j)%nat -> children users !! j = Some later ->
              id_of later <> id_of user) ->
          dict_get (id_of user) result
          = Some (UserInfo
                    (text_of "protocol" server ++ "://" ++ text_of "host" server
                     ++ ":" ++ text_of "port" server ++ text_of "avatar" user)
                    (find "name" user ≫= text)))
    /\ format_avatar (Some "http") (Some "example.com") (Some "80")
         (Some "/api/images/users/1")
              = "http://example.com:80/api/images/users/1".
Proof.
  unfold well_formed, get_data_xml_root. intros Hwf.
  destruct (find "server" root) as [server|]; [|done].
  destruct (find "users" root) as [users|]; [|done].
  apply andb_prop in Hwf as [[[Hp Hh]%andb_prop Hport]%andb_prop Hus].
  eexists server, users, _. split; [done|]. split; [done|].
  split; [by apply get_data_xml_users_ok|]. split; [done|].
  split; [|reflexivity]. intros i user Hi Hlater.
  by apply (dict_get_foldl_last id_of (entry_of server) _ [] i user).
Qed.

Lemma get_data_xml_records_users_witness :
  exists result,
    get_data_xml_root example_document = Ok result
    /\ dict_get 1 result
       = Some (UserInfo "http://example.com:80/api/images/users/1" (Some "Jan K."%string)).
Proof.
  destruct (get_data_xml_records_users example_document)
    as (server & users & result & Hs & Hu & Hrun & _ & Hget & _); [reflexivity|].
  exists result. split; [exact Hrun|].
  injection Hs as <-. injection Hu as <-.
  apply (Hget 0%nat (Element "user" [("id", "1")] None
          [Element "avatar" [] (Some "/api/images/users/1") [];
           Element "name" [] (Some "Jan K.") []])%string); [reflexivity|].
  intros [|[|j]] later Hj; [lia | discriminate | discriminate].
Defined.

(** ** Cache layer *)

Lemma SFlt_le_trans (a b e : spec_float) :
  SFltb a e = false -> SFleb a b = true -> SFltb b e = false.
Proof.
  unfold SFltb, SFleb.
  destruct a as [sa|sa| |sa ma ea], b as [sb|sb| |sb mb eb],
    e as [se|se| |se me ee]; simpl;
    repeat match goal with s : bool |- _ => destruct s end; simpl;
    try congruence.
  all: repeat match goal with
       | |- context [PosDef.Pos.compare_cont Eq ?x ?y] =>
           change (PosDef.Pos.compare_cont Eq x y) with (Pos.compare x y)
       end.
  all: destruct (Z.compare_spec ea eb), (Z.compare_spec eb ee),
         (Z.compare_spec ea ee); simpl; try congruence; try lia; subst.
  all: destruct (Pos.compare_spec ma mb), (Pos.compare_spec mb me),
         (Pos.compare_spec ma me); simpl; try congruence; try lia.
Qed.

(** A stamp that a reading has reached stays reached at every later
    reading. *)
Lemma float_stale_later (now now' stamp : float) :
  (now <? stamp)%float = false ->
  (now <=? now')%float = true ->
  (now' <? stamp)%float = false.
Proof. rewrite !ltb_spec, leb_spec. apply SFlt_le_trans. Qed.

Lemma expiry_600 (now : float) : expiry now 600 = (now + 600)%float.
Proof. reflexivity. Qed.

Section MemoizeFacts.
Context {Args V : Type}.
Implicit Types (f : function Args V) (st : process Args V) (now : float).

Lemma memoize_hit duration f args now w st entry :
  CACHE st !! __name__ f = Some entry ->
  (now <? time entry)%float = true ->
  __memoize duration f args now w st = (Ok (value entry), st).
Proof.
  intros Hentry Hlt. unfold __memoize. rewrite Hentry. simpl. by rewrite Hlt.
Qed.

Lemma memoize_miss duration f args now w st :
  stale (__name__ f) now st ->
  __memoize duration f args now w st
  = let st' := Process (CACHE st) (calls st ++ [(__name__ f, args)]) in
    match call f args w with
    | Ok result =>
        (Ok result,
         Process (<[__name__ f := CacheEntry (expiry now duration) result]> (CACHE st))
                 (calls st'))
    | Raise e => (Raise e, st')
    end.
Proof.
  intros Hstale. unfold __memoize.
  destruct (CACHE st !! __name__ f) as [entry|] eqn:Hentry; simpl; [|done].
  by rewrite (Hstale entry Hentry).
Qed.

Lemma stale_after_load f stamp now' st result
  (calls' : list (string * Args)) :
  (now' <? stamp)%float = false ->
  stale (__name__ f) now'
    (Process (<[__name__ f := CacheEntry stamp result]> (CACHE st)) calls').
Proof.
  intros Hle entry. simpl. rewrite lookup_insert_eq. by intros [= <-].
Qed.

Lemma stale_later key now now' st :
  (now <=? now')%float = true -> stale key now st -> stale key now' st.
Proof.
  intros Hle Hstale entry Hentry.
  apply float_stale_later with now; [by apply Hstale | exact Hle].
Qed.

End MemoizeFacts.

(** C2, as amended. A call of a function wrapped by the 600-second cache
    returns the stored value when an entry is stored under the function's
    name with a time stamp strictly greater than the clock reading;
    otherwise it calls the wrapped function, stores
    [{time: now + 600, value: result}] under that one key (no other key
    changes) and returns the result. The stamp is the binary64 sum
    [t0 + 600]. So after a call at [t0] that loaded [v], every call with
    a reading below that stamp returns [v] and leaves the process, with
    its record of calls to the wrapped function, as it was; and a call
    with a reading that is not below the stamp calls the wrapped function
    exactly once. *)
Theorem memoize_600_seconds {Args V : Type} (f : function Args V)
  (st : process Args V) (args0 : Args) (w0 : world) (t0 : float) (v : V) :
  let key := __name__ f in
  let run := __memoize 600 f in
  (forall entry, CACHE st !! key = Some entry -> (t0 <? time entry)%float = false) ->
  call f args0 w0 = Ok v ->
  let st0 := Process (<[key := CacheEntry (t0 + 600)%float v]> (CACHE st))
               (calls st ++ [(key, args0)]) in
  (forall s args now w entry,
      CACHE s !! key = Some entry -> (now <? time entry)%float = true ->
      run args now w s = (Ok (value entry), s))
  /\ (forall s args now w result,
        (forall entry, CACHE s !! key = Some entry ->
                       (now <? time entry)%float = false) ->
        call f args w = Ok result ->
        run args now w s
        = (Ok result,
           Process (<[key := CacheEntry (now + 600)%float result]> (CACHE s))
             (calls s ++ [(key, args)])))
  /\ run args0 t0 w0 st = (Ok v, st0)
  /\ (forall k, k <> key -> CACHE st0 !! k = CACHE st !! k)
  /\ (forall args w t, (t <? t0 + 600)%float = true ->
        run args t w st0 = (Ok v, st0))
  /\ (forall args w t, (t <? t0 + 600)%float = false ->
        (run args t w st0).1 = call f args w
        /\ calls (run args t w st0).2 = calls st0 ++ [(key, args)]).
Proof.
  intros key run Hstale Hload st0.
  assert (Hmiss : forall s args now w result,
    (forall entry, CACHE s !! key = Some entry ->
                   (now <? time entry)%float = false) ->
    call f args w = Ok result ->
    run args now w s
    = (Ok result,
       Process (<[key := CacheEntry (now + 600)%float result]> (CACHE s))
         (calls s ++ [(key, args)]))).
  { intros s args now w result Hs Hcall. unfold run.
    rewrite memoize_miss by exact Hs. by rewrite Hcall, expiry_600. }
  split; [intros s args now w entry; apply memoize_hit|].
  split; [exact Hmiss|].
  split; [by apply Hmiss|].
  split; [intros k Hk; simpl; by rewrite lookup_insert_ne|].
  split.
  - intros args w t Ht.
    apply (memoize_hit 600 f args t w st0 (CacheEntry (t0 + 600)%float v));
      [apply lookup_insert_eq | exact Ht].
  - intros args w t Ht. unfold run.
    rewrite memoize_miss by (by apply stale_after_load).
    by destruct (call f args w).
Qed.

Lemma memoize_600_seconds_witness :
  get_data 1000 (World (Ok example_rows) (Raise IOError)) (Process ∅ [])
  = (Ok example_loaded,
     Process (<["get_data"%string := CacheEntry (1000 + 600)%float example_loaded]> ∅)
       [("get_data"%string, ())])
  /\ (get_data 1599 (World (Ok []) (Raise IOError))
        (Process (<["get_data"%string := CacheEntry (1000 + 600)%float example_loaded]> ∅)
           [("get_data"%string, ())])).1
     = Ok example_loaded
  /\ (get_data 1600 (World (Ok []) (Raise IOError))
        (Process (<["get_data"%string := CacheEntry (1000 + 600)%float example_loaded]> ∅)
           [("get_data"%string, ())])).1
     = Ok (Attendance []).
Proof.
  destruct (memoize_600_seconds get_data_function (Process ∅ []) ()
              (World (Ok example_rows) (Raise IOError)) 1000 example_loaded)
    as (_ & _ & Hfirst & _ & Hwithin & Hafter).
  - intros entry Hentry. vm_compute in Hentry. discriminate Hentry.
  - reflexivity.
  - split; [exact Hfirst|]. split.
    + exact (f_equal fst (Hwithin () (World (Ok []) (Raise IOError)) 1599%float
                            ltac:(by vm_compute))).
    + exact (proj1 (Hafter () (World (Ok []) (Raise IOError)) 1600%float
                      ltac:(by vm_compute))).
Defined.

(** C2, as the specification states it, fails at the edge of the window.
    The reading 2147483348.0000002 plus 600 rounds down to 2147483948.0.
    A second call at 2147483948.0 comes less than 600 seconds after the
    first, yet the stored stamp is not greater than its reading: the
    loader is called a second time and the call returns what the file
    holds then, not the value of the first call. *)
Lemma memoize_600_seconds_counterexample :
  match float_to_Q edge_reading, float_to_Q 2147483948 with
  | Some q0, Some q1 => (q0 < q1 /\ q1 - q0 < 600)%Q
  | _, _ => False
  end
  /\ (get_data edge_reading (World (Ok example_rows) (Raise IOError))
        (Process ∅ [])).1 = Ok example_loaded
  /\ (get_data 2147483948 (World (Ok []) (Raise IOError))
        (get_data edge_reading (World (Ok example_rows) (Raise IOError))
           (Process ∅ [])).2).1 = Ok (Attendance [])
  /\ calls (get_data 2147483948 (World (Ok []) (Raise IOError))
              (get_data edge_reading (World (Ok example_rows) (Raise IOError))
                 (Process ∅ [])).2).2
     = [("get_data"%string, ()); ("get_data"%string, ())].
Proof.
  split; [by vm_compute|]. split; [by vm_compute|]. split; by vm_compute.
Qed.

(** C3. When the wrapped function is called and raises, the memoized call
    raises the same exception and [CACHE] is left as it was; so a next
    call, at the same or a later clock reading, calls the wrapped function
    again, and its outcome is the outcome of that fresh call. *)
Theorem memoize_failure_not_cached {Args V : Type} (f : function Args V)
  (st : process Args V) (args : Args) (w : world) (now : float) (e : exn) :
  let key := __name__ f in
  let run := __memoize 600 f in
  (forall entry, CACHE st !! key = Some entry -> (now <? time entry)%float = false) ->
  call f args w = Raise e ->
  let st' := (run args now w st).2 in
  (run args now w st).1 = Raise e
  /\ CACHE st' = CACHE st
  /\ calls st' = calls st ++ [(key, args)]
  /\ (forall args' w' now',
        (now <=? now')%float = true ->
        (run args' now' w' st').1 = call f args' w'
        /\ calls (run args' now' w' st').2 = calls st' ++ [(key, args')])
  /\ (forall w e, DATA_CSV w = Raise e -> call get_data_function () w = Raise e).
Proof.
  intros key run Hstale Hraise. unfold run.
  rewrite memoize_miss by exact Hstale. rewrite Hraise. simpl.
  split; [done|]. split; [done|]. split; [done|].
  split; [|by intros w' e' Hw; simpl; rewrite Hw].
  intros args' w' now' Hle.
  rewrite memoize_miss
    by (intros entry Hentry; apply float_stale_later with now;
        [by apply Hstale | exact Hle]).
  by destruct (call f args' w').
Qed.

Lemma memoize_failure_not_cached_witness :
  (get_data 1000 (World (Raise IOError) (Raise IOError)) (Process ∅ [])).1
  = Raise IOError
  /\ CACHE (get_data 1000 (World (Raise IOError) (Raise IOError)) (Process ∅ [])).2 = ∅
  /\ (get_data 1001 (World (Ok []) (Raise IOError))
        (get_data 1000 (World (Raise IOError) (Raise IOError)) (Process ∅ [])).2).1
     = Ok (Attendance []).
Proof.
  destruct (memoize_failure_not_cached get_data_function (Process ∅ []) ()
              (World (Raise IOError) (Raise IOError)) 1000 IOError)
    as (Hraise & Hcache & _ & Hnext & _).
  - intros entry Hentry. vm_compute in Hentry. discriminate Hentry.
  - reflexivity.
  - split; [exact Hraise|]. split; [exact Hcache|].
    exact (proj1 (Hnext () (World (Ok []) (Raise IOError)) 1001%float
                    ltac:(by vm_compute))).
Defined.

(** C9. The key of the cache entry is the function's name alone. After a
    call with arguments [args0] at [t0] that loaded [v], the entry under
    the name holds [v] with the stamp [t0 + 600] (the binary64 sum), no
    other key was added, and while the entry is valid, that is for every
    call with a reading below that stamp, whatever its arguments and
    whatever the world then holds, the call returns [v] and changes
    nothing. *)
Theorem memoize_ignores_arguments {Args V : Type} (f : function Args V)
  (st : process Args V) (args0 : Args) (w0 : world) (t0 : float) (v : V)
  (cs : list (Args * float * world)) :
  (forall entry, CACHE st !! __name__ f = Some entry ->
                 (t0 <? time entry)%float = false) ->
  call f args0 w0 = Ok v ->
  Forall (fun c => (c.1.2 <? t0 + 600)%float = true) cs ->
  let st0 := (__memoize 600 f args0 t0 w0 st).2 in
  CACHE st0 = <[__name__ f := CacheEntry (t0 + 600)%float v]> (CACHE st)
  /\ dom (CACHE st0) = {[__name__ f]} ∪ dom (CACHE st)
  /\ run_calls 600 f cs st0 = (replicate (length cs) (Ok v), st0).
Proof.
  intros Hstale Hload Hcs. rewrite memoize_miss by exact Hstale.
  rewrite Hload, expiry_600. simpl.
  split; [done|]. split; [by rewrite dom_insert_L|].
  induction Hcs as [|[[args now] w] cs Hnow _ IH]; simpl; [done|].
  rewrite (memoize_hit 600 f args now w _ (CacheEntry (t0 + 600)%float v));
    [|apply lookup_insert_eq|exact Hnow].
  simpl. by rewrite IH.
Qed.

Lemma memoize_ignores_arguments_witness :
  (__memoize 600 example_square 3 1000 (World (Ok []) (Raise IOError))
     (Process ∅ [])).1 = Ok 9
  /\ (run_calls 600 example_square
        [(4, 1001%float, World (Ok []) (Raise IOError));
         (5, 1599%float, World (Raise IOError) (Raise IOError))]
        (__memoize 600 example_square 3 1000 (World (Ok []) (Raise IOError))
           (Process ∅ [])).2).1
     = [Ok 9; Ok 9].
Proof.
  split; [reflexivity|].
  refine (f_equal fst
    (proj2 (proj2
      (memoize_ignores_arguments example_square (Process ∅ []) 3
         (World (Ok []) (Raise IOError)) 1000 9
         [(4, 1001%float, World (Ok []) (Raise IOError));
          (5, 1599%float, World (Raise IOError) (Raise IOError))] _ _ _)))).
  - intros entry Hentry. vm_compute in Hentry. discriminate Hentry.
  - reflexivity.
  - repeat constructor.
Defined.

(** ** Attendance loader *)

(** C1. (Where [get_data] departs from the specification.) After the
    [except] clause has logged a row, control falls through to the
    assignment into [data], with whatever the local variables hold. The
    row [2,2023-13-40,10:00:00,18:00:00], whose date does not parse, is
    logged, and after a valid row for user 1 it stores, for user 2, the
    date and times of that earlier row; as the first 4-field row it makes
    the load raise [UnboundLocalError]. *)
Theorem get_data_failed_row_not_skipped :
  strptime_date "2023-13-40" = Raise ValueError
  /\ data <$> get_data_loop [["1"; "2023-01-02"; "09:00:00"; "17:00:00"]]%string
     = Ok [(1, [(datetime.Date 2023 1 2,
                 StartEnd (datetime.Time 9 0 0) (datetime.Time 17 0 0))])]
  /\ (exists st,
        get_data_loop [["1"; "2023-01-02"; "09:00:00"; "17:00:00"];
                       ["2"; "2023-13-40"; "10:00:00"; "18:00:00"]]%string = Ok st
        /\ debug_log st = [1%nat]
        /\ data st
           = [(1, [(datetime.Date 2023 1 2,
                    StartEnd (datetime.Time 9 0 0) (datetime.Time 17 0 0))]);
              (2, [(datetime.Date 2023 1 2,
                    StartEnd (datetime.Time 9 0 0) (datetime.Time 17 0 0))])])
  /\ get_data_loop [["2"; "2023-13-40"; "10:00:00"; "18:00:00"];
                    ["1"; "2023-01-02"; "09:00:00"; "17:00:00"]]%string
     = Raise UnboundLocalError.
Proof.
  split; [reflexivity|]. split; [reflexivity|].
  split; [|reflexivity]. eexists. split; [reflexivity|]. split; reflexivity.
Qed.

(** ** Mean by month *)

Lemma valid_date_month d :
  datetime.valid_date d = true -> 1 <= datetime.month d <= 12.
Proof. unfold datetime.valid_date. lia. Qed.

Lemma mean_by_month_samples_snoc items x :
  mean_by_month_samples (items ++ [x])
  = append_at (Z.to_nat (datetime.month x.1 - 1)) (interval_of x)
      (mean_by_month_samples items).
Proof. unfold mean_by_month_samples. rewrite foldl_snoc. by destruct x. Qed.

Lemma mean_by_month_samples_length items :
  length (mean_by_month_samples items) = 12%nat.
Proof.
  induction items as [|x items IH] using rev_ind; [reflexivity|].
  rewrite mean_by_month_samples_snoc. unfold append_at. by rewrite length_alter.
Qed.

Lemma mean_by_month_samples_lookup items (m : nat) :
  valid_dates items -> (m < 12)%nat ->
  mean_by_month_samples items !! m
  = Some (interval_of <$> in_month (Z.of_nat m + 1) items).
Proof.
  intros Hv Hm. induction items as [|x items IH] using rev_ind.
  - do 12 (destruct m as [|m]; [reflexivity|]). lia.
  - apply Forall_app in Hv as [Hv Hx]. apply Forall_inv in Hx.
    apply valid_date_month in Hx. specialize (IH Hv).
    rewrite mean_by_month_samples_snoc. unfold append_at, in_month.
    rewrite filter_app, fmap_app.
    destruct (decide (Z.to_nat (datetime.month x.1 - 1) = m)) as [<-|Hne].
    + rewrite list_lookup_alter_eq, IH.
      rewrite filter_cons_True by (simpl; lia). by rewrite filter_nil.
    + rewrite list_lookup_alter_ne by done. rewrite IH.
      rewrite filter_cons_False by (simpl; lia). rewrite filter_nil.
      by rewrite app_nil_r.
Qed.

Lemma mean_by_month_valid (items : presence) :
  valid_dates items ->
  mean_by_month items
  = (fun m => mean (interval_of <$> in_month (m + 1) items)) <$> range12.
Proof.
  intros Hv. unfold mean_by_month. apply list_eq. intros m.
  rewrite list_lookup_fmap.
  destruct (decide (m < 12)%nat) as [Hm|Hm].
  - rewrite mean_by_month_samples_lookup by done.
    do 12 (destruct m as [|m]; [reflexivity|]). lia.
  - rewrite !lookup_ge_None_2; [done | simpl; lia |].
    rewrite mean_by_month_samples_length. lia.
Qed.

(** X1. For dates that [datetime.date] can hold, [mean_by_month] returns
    twelve numbers, January first: the one at index [m] is [mean] of the
    intervals of the entries dated in month [m + 1], taken in input
    order, and it is the integer 0 when no entry falls in that month. *)
Theorem mean_by_month_by_month (items : presence) :
  valid_dates items ->
  mean_by_month items
    = (fun m => mean (interval_of <$> in_month (m + 1) items)) <$> range12
  /\ forall m, in_month m items = [] ->
       mean (interval_of <$> in_month m items) = PyInt 0.
Proof.
  intros Hv. split; [by apply mean_by_month_valid | by intros m ->].
Qed.

Lemma mean_by_month_by_month_witness :
  mean_by_month example_presence
  = [PyFloat 29700; PyInt 0; PyInt 0; PyInt 0; PyInt 0; PyInt 0;
     PyInt 0; PyInt 0; PyInt 0; PyInt 0; PyInt 0; PyInt 0].
Proof.
  rewrite (proj1 (mean_by_month_by_month example_presence
                    ltac:(repeat constructor))).
  by vm_compute.
Defined.

(** X2. The month buckets that [mean_by_month] averages lose and repeat
    nothing: there are twelve of them, they hold as many intervals as the
    input has entries, and together they are the intervals of all entries
    up to order. This needs the months to be in 1..12. *)
Theorem mean_by_month_samples_partition (items : presence) :
  valid_dates items ->
  length (mean_by_month_samples items) = 12%nat
  /\ sum_list (length <$> mean_by_month_samples items) = length items
  /\ concat (mean_by_month_samples items) ≡ₚ interval_of <$> items.
Proof.
  intros Hv. split; [apply mean_by_month_samples_length|].
  assert (Hidx : forall x : datetime.date * start_end datetime.time,
    datetime.valid_date x.1 = true ->
    (Z.to_nat (datetime.month x.1 - 1) < 12)%nat).
  { intros x Hx%valid_date_month. lia. }
  split.
  - induction items as [|x items IH] using rev_ind; [reflexivity|].
    apply Forall_app in Hv as [Hv Hx]. apply Forall_inv in Hx.
    rewrite mean_by_month_samples_snoc, append_at_sum_length, (IH Hv).
    + rewrite length_app. simpl. lia.
    + rewrite mean_by_month_samples_length. by apply Hidx.
  - induction items as [|x items IH] using rev_ind; [reflexivity|].
    apply Forall_app in Hv as [Hv Hx]. apply Forall_inv in Hx.
    rewrite mean_by_month_samples_snoc, append_at_concat, (IH Hv).
    + rewrite fmap_app. simpl. by rewrite <- Permutation_cons_append.
    + rewrite mean_by_month_samples_length. by apply Hidx.
Qed.

Lemma mean_by_month_samples_partition_witness :
  sum_list (length <$> mean_by_month_samples example_presence) = 2%nat.
Proof.
  exact (proj1 (proj2 (mean_by_month_samples_partition example_presence
                         ltac:(repeat constructor)))).
Defined.

(** ** More on interval math *)

Lemma seconds_since_midnight_round_trip_aux (u : datetime.time) :
  datetime.valid_time u = true ->
  0 <= seconds_since_midnight u < 86400
  /\ datetime.Time (seconds_since_midnight u / 3600)
       (seconds_since_midnight u mod 3600 / 60)
       (seconds_since_midnight u mod 60) = u.
Proof.
  destruct u as [h m s]. intros Hu%valid_time_bounds. simpl in Hu.
  unfold seconds_since_midnight. simpl. split; [lia|].
  f_equal; Z.div_mod_to_equations; lia.
Qed.

(** X3. A valid time of day and its seconds since midnight determine each
    other: the seconds lie in 0..86399, and hour, minute and second are
    recovered from them by division. So two valid times with the same
    seconds since midnight are the same time. *)
Theorem seconds_since_midnight_round_trip (t : datetime.time) :
  datetime.valid_time t = true ->
  0 <= seconds_since_midnight t < 86400
  /\ datetime.Time (seconds_since_midnight t / 3600)
       (seconds_since_midnight t mod 3600 / 60)
       (seconds_since_midnight t mod 60) = t
  /\ forall t', datetime.valid_time t' = true ->
       seconds_since_midnight t' = seconds_since_midnight t -> t' = t.
Proof.
  intros Ht.
  destruct (seconds_since_midnight_round_trip_aux t Ht) as [Hr Hd].
  split; [exact Hr|]. split; [exact Hd|].
  intros t' Ht' Heq.
  destruct (seconds_since_midnight_round_trip_aux t' Ht') as [_ Hd'].
  rewrite <- Hd, <- Hd'. by rewrite Heq.
Qed.

Lemma seconds_since_midnight_round_trip_witness :
  datetime.Time (seconds_since_midnight (datetime.Time 17 30 15) / 3600)
    (seconds_since_midnight (datetime.Time 17 30 15) mod 3600 / 60)
    (seconds_since_midnight (datetime.Time 17 30 15) mod 60)
  = datetime.Time 17 30 15.
Proof.
  exact (proj1 (proj2 (seconds_since_midnight_round_trip
                         (datetime.Time 17 30 15) eq_refl))).
Defined.

(** X4. Intervals between valid times of day stay within one day,
    [-86400 < interval(a, b) < 86400]; the interval is 0 only between
    equal times; reversing the arguments negates it; and intervals chain,
    [interval(a, b) + interval(b, c) = interval(a, c)]. *)
Theorem interval_algebra (a b c : datetime.time) :
  datetime.valid_time a = true ->
  datetime.valid_time b = true ->
  -86400 < interval a b < 86400
  /\ (interval a b = 0 <-> a = b)
  /\ interval b a = - interval a b
  /\ interval a b + interval b c = interval a c.
Proof.
  intros Ha Hb.
  destruct (seconds_since_midnight_round_trip_aux a Ha) as [Hra Hda].
  destruct (seconds_since_midnight_round_trip_aux b Hb) as [Hrb Hdb].
  unfold interval. split; [lia|]. split; [|lia].
  split; [|intros ->; lia].
  intros Heq. rewrite <- Hda, <- Hdb.
  by replace (seconds_since_midnight b) with (seconds_since_midnight a) by lia.
Qed.

Lemma interval_algebra_witness :
  -86400 < interval (datetime.Time 23 59 59) (datetime.Time 0 0 0) < 86400
  /\ interval (datetime.Time 0 0 0) (datetime.Time 23 59 59)
     = - interval (datetime.Time 23 59 59) (datetime.Time 0 0 0).
Proof.
  destruct (interval_algebra (datetime.Time 23 59 59) (datetime.Time 0 0 0)
              (datetime.Time 0 0 0) eq_refl eq_refl) as (Hb & _ & Hneg & _).
  split; [exact Hb | exact Hneg].
Defined.

(** ** More on the attendance loader *)

Section DictSet.
Context {K V : Type} `{EqDecision K}.
Implicit Types (d : dict K V) (k : K) (v : V).

Lemma dict_set_keys k v d :
  (dict_set k v d).*1 = if decide (k ∈ d.*1) then d.*1 else d.*1 ++ [k].
Proof.
  induction d as [|[k' v'] d IH].
  - destruct (decide (k ∈ ([] : dict K V).*1)) as [Hin|_]; [|done].
    by apply elem_of_nil in Hin.
  - cbn [dict_set]. destruct (decide (k = k')) as [->|Hne].
    + rewrite decide_True; [done|]. rewrite fmap_cons. by left.
    + rewrite fmap_cons, IH, !fmap_cons. cbn [fst].
      destruct (decide (k ∈ d.*1)) as [Hin|Hin].
      * rewrite decide_True; [done|]. by right.
      * rewrite decide_False; [done|]. by intros [?|?]%elem_of_cons.
Qed.

Lemma dict_set_NoDup k v d : NoDup d.*1 -> NoDup (dict_set k v d).*1.
Proof.
  intros Hd. rewrite dict_set_keys. case_decide; [done|].
  apply NoDup_app. split; [done|]. split; [|apply NoDup_singleton].
  by intros x Hx ->%list_elem_of_singleton.
Qed.

Lemma dict_set_Forall (P : K * V -> Prop) k v d :
  Forall P d -> P (k, v) -> Forall P (dict_set k v d).
Proof.
  intros Hd Hk. induction Hd as [|[k' v'] d Hx Hd IH]; simpl.
  - by constructor.
  - destruct (decide (k = k')) as [->|Hne]; by constructor.
Qed.

Lemma dict_set_idemp k v d : dict_set k v (dict_set k v d) = dict_set k v d.
Proof.
  induction d as [|[k' v'] d IH]; simpl.
  - by rewrite decide_True.
  - destruct (decide (k = k')) as [->|Hne]; simpl.
    + by rewrite decide_True.
    + by rewrite decide_False, IH.
Qed.

Lemma dict_set_nonempty k v d : dict_set k v d <> [].
Proof. destruct d as [|[k' v'] d]; simpl; [done|]. by case_decide. Qed.

Lemma dict_get_Some_elem k v d : dict_get k d = Some v -> (k, v) ∈ d.
Proof.
  induction d as [|[k' v'] d IH]; simpl; [done|].
  destruct (decide (k = k')) as [->|Hne].
  - intros [= ->]. set_solver.
  - intros Hget. apply IH in Hget. set_solver.
Qed.

End DictSet.

Lemma record_of_put_eq u d v data : record_of u d (put u d v data) = Some v.
Proof.
  unfold record_of, put. rewrite dict_get_set_eq. simpl. apply dict_get_set_eq.
Qed.

Lemma record_of_put_ne u d v u' d' data :
  (u, d) <> (u', d') -> record_of u' d' (put u d v data) = record_of u' d' data.
Proof.
  intros Hne. unfold record_of, put.
  destruct (decide (u = u')) as [<-|Hu].
  - rewrite dict_get_set_eq. simpl.
    rewrite dict_get_set_ne by congruence.
    by destruct (dict_get u data).
  - by rewrite dict_get_set_ne.
Qed.

Lemma put_idemp u d v data : put u d v (put u d v data) = put u d v data.
Proof.
  unfold put at 1. unfold put at 1. rewrite dict_get_set_eq. simpl.
  rewrite dict_set_idemp. unfold put. apply dict_set_idemp.
Qed.

Lemma of_option_raise {A} (o : option A) e : of_option o = Raise e -> e = ValueError.
Proof. destruct o; simpl; congruence. Qed.

Lemma get_data_row_other i row st :
  length row <> 4%nat -> get_data_row i row st = Ok st.
Proof.
  intros Hlen. unfold get_data_row.
  destruct row as [|r0 [|r1 [|r2 [|r3 [|r4 row]]]]]; simpl in *; done.
Qed.

Lemma store_bound fr data :
  bound fr ->
  exists u d s e,
    fr = Frame (Some u) (Some d) (Some s) (Some e)
    /\ store fr data = Ok (put u d (StartEnd s e) data).
Proof.
  destruct fr as [[u|] [d|] [s|] [e|]]; intros (Hu & Hd & Hs & He);
    try (by destruct Hu); try (by destruct Hd); try (by destruct Hs);
    try (by destruct He).
  by exists u, d, s, e.
Qed.

Lemma store_unbound fr data :
  v_end fr = None -> store fr data = Raise UnboundLocalError.
Proof.
  unfold store. intros ->. by destruct (v_start fr).
Qed.

Lemma try_body_parsed row0 row1 row2 row3 fr u d v :
  parse_row [row0; row1; row2; row3] = Some (u, d, v) ->
  try_body row0 row1 row2 row3 fr
  = (Frame (Some u) (Some d) (Some (start v)) (Some (end_ v)), Ok ()).
Proof.
  unfold parse_row, try_body.
  destruct (py_int row0); [|done]. destruct (strptime_date row1); [|done].
  destruct (strptime_time row2); [|done]. destruct (strptime_time row3); [|done].
  by intros [= <- <- <-].
Qed.

Lemma try_body_failed row0 row1 row2 row3 fr :
  parse_row [row0; row1; row2; row3] = None ->
  exists fr',
    try_body row0 row1 row2 row3 fr = (fr', Raise ValueError)
    /\ v_end fr' = v_end fr
    /\ (bound fr -> bound fr').
Proof.
  unfold parse_row, try_body, py_int, strptime_date, strptime_time.
  repeat match goal with
  | |- context [of_option ?o] => destruct o; simpl
  end; intros Hp; try discriminate Hp;
    (eexists; split; [reflexivity|]; split; [reflexivity|]);
    unfold bound; simpl; intuition eauto.
Qed.

Lemma get_data_row_four i row st :
  length row = 4%nat ->
  get_data_row i row st
  = match parse_row row with
    | Some (u, d, v) =>
        let fr := Frame (Some u) (Some d) (Some (start v)) (Some (end_ v)) in
        Ok (LoopState (put u d v (data st)) fr (debug_log st))
    | None =>
        match row with
        | [row0; row1; row2; row3] =>
            let fr := (try_body row0 row1 row2 row3 (locals st)).1 in
            data' ← store fr (data st);
            Ok (LoopState data' fr (debug_log st ++ [i]))
        | _ => Ok st
        end
    end.
Proof.
  intros Hlen.
  destruct row as [|r0 [|r1 [|r2 [|r3 [|r4 row]]]]]; try discriminate Hlen.
  unfold get_data_row.
  destruct (parse_row [r0; r1; r2; r3]) as [[[u d] v]|] eqn:Hp.
  - rewrite (try_body_parsed _ _ _ _ _ _ _ _ Hp). simpl. by destruct v.
  - destruct (try_body_failed r0 r1 r2 r3 (locals st) Hp) as (fr' & -> & _ & _).
    reflexivity.
Qed.

Lemma get_data_row_bound i row st :
  bound (locals st) ->
  exists st', get_data_row i row st = Ok st' /\ bound (locals st').
Proof.
  intros Hb. destruct (decide (length row = 4%nat)) as [Hlen|Hlen];
    [|by rewrite get_data_row_other; eauto].
  rewrite get_data_row_four by done.
  destruct (parse_row row) as [[[u d] v]|] eqn:Hp.
  - eexists. split; [reflexivity|]. unfold bound. simpl. eauto 10.
  - destruct row as [|r0 [|r1 [|r2 [|r3 [|r4 row]]]]]; try discriminate Hlen.
    destruct (try_body_failed r0 r1 r2 r3 (locals st) Hp) as (fr' & -> & _ & Hb').
    simpl. destruct (store_bound fr' (data st) (Hb' Hb)) as (u & d & s & e & _ & ->).
    simpl. eexists. split; [reflexivity|]. by apply Hb'.
Qed.

Lemma get_data_rows_bound i rows st :
  bound (locals st) ->
  exists st', get_data_rows i rows st = Ok st' /\ bound (locals st').
Proof.
  revert i st. induction rows as [|row rows IH]; intros i st Hb; simpl; [eauto|].
  destruct (get_data_row_bound i row st Hb) as (st1 & -> & Hb1). simpl.
  by apply IH.
Qed.

Lemma get_data_rows_unbound i rows st :
  v_end (locals st) = None ->
  match four_fields rows with
  | [] => get_data_rows i rows st = Ok st
  | row :: _ =>
      match parse_row row with
      | Some _ => exists st', get_data_rows i rows st = Ok st'
      | None => get_data_rows i rows st = Raise UnboundLocalError
      end
  end.
Proof.
  revert i st. induction rows as [|row rows IH]; intros i st Hend; [done|].
  unfold four_fields. simpl.
  destruct (decide (length row = 4%nat)) as [Hlen|Hlen].
  - rewrite filter_cons_True by done. rewrite get_data_row_four by done.
    destruct (parse_row row) as [[[u d] v]|] eqn:Hp.
    + simpl.
      edestruct (get_data_rows_bound (S i) rows) as (st' & Hst' & _);
        [|by eexists; apply Hst'].
      unfold bound. simpl. eauto 10.
    + destruct row as [|r0 [|r1 [|r2 [|r3 [|r4 row]]]]]; try discriminate Hlen.
      destruct (try_body_failed r0 r1 r2 r3 (locals st) Hp) as (fr' & -> & He & _).
      simpl. rewrite store_unbound by congruence. done.
  - rewrite filter_cons_False by done. rewrite get_data_row_other by done.
    simpl. by apply IH.
Qed.

(** For rows that are all at hand, the loop fails only with
    [UnboundLocalError], exactly when the first row of four fields does
    not parse; with no row of four fields it returns the empty mapping. *)
Lemma get_data_loop_outcome (rows : list (list string)) :
  (forall e, get_data_loop rows = Raise e -> e = UnboundLocalError)
  /\ (get_data_loop rows = Raise UnboundLocalError
      <-> exists row, head (four_fields rows) = Some row /\ parse_row row = None)
  /\ (four_fields rows = [] -> data <$> get_data_loop rows = Ok []).
Proof.
  pose proof (get_data_rows_unbound 0 rows
                (LoopState [] (Frame None None None None) []) eq_refl) as H.
  fold (get_data_loop rows) in H.
  destruct (four_fields rows) as [|row rest]; simpl.
  - rewrite H. split; [done|]. split; [|done].
    split; [done | by intros (row & ? & _)].
  - destruct (parse_row row) eqn:Hp; simpl in H.
    + destruct H as [st' ->]. split; [done|]. split; [|done].
      split; [done|]. intros (row' & [= <-] & Hp'). congruence.
    + rewrite H. split; [by intros e [= <-]|]. split; [|done].
      split; [by eauto|done].
Qed.

Lemma get_data_read_yielded i reader st :
  get_data_read i reader st
  = st' ← get_data_rows i (yielded reader) st;
    match reader_error reader with
    | Some e => Raise e
    | None => Ok st'
    end.
Proof.
  revert i st. induction reader as [|[row|e] reader IH]; intros i st; simpl;
    [done| |done].
  destruct (get_data_row i row st) as [st1|e]; simpl; [apply IH | done].
Qed.

Lemma yielded_all (rows : list (list string)) :
  yielded (Ok <$> rows) = rows /\ reader_error (Ok <$> rows) = None.
Proof.
  induction rows as [|row rows [IH1 IH2]]; [done|].
  rewrite fmap_cons. cbn [yielded reader_error]. by rewrite IH1.
Qed.

(** X5. With the rows pulled one by one from the reader, the load fails
    with [UnboundLocalError] when the first four-field row pulled does
    not parse (the assignment into [data] then reads locals that were
    never assigned); otherwise it fails with the exception of the first
    pull on which the reader raises, whatever was loaded before; and
    otherwise it returns. It fails in no other way, and on a reader that
    never raises it is the loop over the list of rows. *)
Theorem get_data_reader_failure (reader : list (outcome (list string))) :
  get_data_reader reader
  = (st ← get_data_loop (yielded reader);
     match reader_error reader with
     | Some e => Raise e
     | None => Ok st
     end)
  /\ ((exists row, head (four_fields (yielded reader)) = Some row
                   /\ parse_row row = None)
      -> get_data_reader reader = Raise UnboundLocalError)
  /\ (forall e, get_data_reader reader = Raise e ->
        (e = UnboundLocalError
         /\ exists row, head (four_fields (yielded reader)) = Some row
                        /\ parse_row row = None)
        \/ reader_error reader = Some e)
  /\ (forall rows, get_data_reader (Ok <$> rows) = get_data_loop rows).
Proof.
  assert (Heq : forall r, get_data_reader r
    = (st ← get_data_loop (yielded r);
       match reader_error r with Some e => Raise e | None => Ok st end))
    by (intros r; apply get_data_read_yielded).
  split; [apply Heq|].
  destruct (get_data_loop_outcome (yielded reader)) as (Honly & Hiff & _).
  split; [|split].
  - intros Hrow. rewrite Heq. by rewrite (proj2 Hiff Hrow).
  - intros e. rewrite Heq.
    destruct (get_data_loop (yielded reader)) as [st|e'] eqn:Hloop; simpl.
    + destruct (reader_error reader) as [e''|]; [|done]. intros [= <-]. by right.
    + intros [= <-]. left. pose proof (Honly e' eq_refl) as ->.
      split; [done|]. by apply Hiff.
  - intros rows. rewrite Heq. destruct (yielded_all rows) as [-> ->].
    by destruct (get_data_loop rows).
Qed.

Lemma get_data_row_log_free i j row st :
  (fun st' => (data st', locals st')) <$> get_data_row i row st
  = (fun st' => (data st', locals st')) <$>
      get_data_row j row (LoopState (data st) (locals st) []).
Proof.
  destruct (decide (length row = 4%nat)) as [Hlen|Hlen];
    [|by rewrite !get_data_row_other].
  rewrite !get_data_row_four by done. simpl.
  destruct (parse_row row) as [[[u d] v]|]; [done|].
  destruct row as [|r0 [|r1 [|r2 [|r3 [|r4 row]]]]]; try done.
  simpl. by destruct (store _ _).
Qed.

Lemma get_data_rows_four_fields i j rows st st' :
  data st = data st' -> locals st = locals st' ->
  (fun s => (data s, locals s)) <$> get_data_rows i rows st
  = (fun s => (data s, locals s)) <$> get_data_rows j (four_fields rows) st'.
Proof.
  revert i j st st'.
  induction rows as [|row rows IH]; intros i j st st' Hd Hl; simpl.
  - by rewrite Hd, Hl.
  - unfold four_fields.
    destruct (decide (length row = 4%nat)) as [Hlen|Hlen].
    + rewrite filter_cons_True by done. simpl.
      pose proof (get_data_row_log_free i j row st) as H1.
      pose proof (get_data_row_log_free j j row st') as H2.
      rewrite <- Hd, <- Hl in H2. rewrite <- H2 in H1. clear H2.
      destruct (get_data_row i row st) as [s1|e1],
               (get_data_row j row st') as [s2|e2]; simpl in *; try congruence.
      apply IH; congruence.
    + rewrite filter_cons_False by done. rewrite get_data_row_other by done.
      simpl. by apply IH.
Qed.

(** X6. Rows that have not exactly four fields (header and footer lines)
    have no effect on what is loaded: the load of a file gives the same
    data, or fails the same way, as the load of its four-field rows
    alone. *)
Theorem get_data_loop_ignores_other_rows (rows : list (list string)) :
  data <$> get_data_loop rows = data <$> get_data_loop (four_fields rows).
Proof.
  pose proof (get_data_rows_four_fields 0 0 rows
    (LoopState [] (Frame None None None None) [])
    (LoopState [] (Frame None None None None) []) eq_refl eq_refl) as H.
  fold (get_data_loop rows) (get_data_loop (four_fields rows)) in H.
  destruct (get_data_loop rows), (get_data_loop (four_fields rows));
    simpl in *; congruence.
Qed.

Lemma get_data_rows_clean i rows st :
  Forall (fun row => length row = 4%nat -> is_Some (parse_row row)) rows ->
  exists fr,
    get_data_rows i rows st
    = Ok (LoopState (foldl put_row (data st) (omap parse_row rows)) fr
            (debug_log st)).
Proof.
  intros Hrows. revert i st.
  induction Hrows as [|row rows Hrow _ IH]; intros i st; simpl.
  - exists (locals st). by destruct st.
  - destruct (decide (length row = 4%nat)) as [Hlen|Hlen].
    + rewrite get_data_row_four by done.
      destruct (Hrow Hlen) as [[[u d] v] Hp]. rewrite Hp. simpl.
      exact (IH (S i)
               (LoopState (put u d v (data st))
                  (Frame (Some u) (Some d) (Some (start v)) (Some (end_ v)))
                  (debug_log st))).
    + rewrite get_data_row_other by done. simpl.
      replace (parse_row row) with (@None (Z * datetime.date * start_end datetime.time)).
      * apply IH.
      * by destruct row as [|r0 [|r1 [|r2 [|r3 [|r4 row]]]]].
Qed.

Lemma record_of_foldl_absent rs data u d :
  Forall (fun r => (r.1.1, r.1.2) <> (u, d)) rs ->
  record_of u d (foldl put_row data rs) = record_of u d data.
Proof.
  intros Hrs. revert data.
  induction Hrs as [|r rs Hr _ IH]; intros data; simpl; [done|].
  rewrite IH. unfold put_row. by apply record_of_put_ne.
Qed.

(** X7. On a file whose four-field rows all parse, the load succeeds,
    logs nothing, and is the plain sequence of assignments
    [data[user_id][date] = {start, end}] in row order; so each
    (user, date) pair holds the times of the last row that names it. *)
Theorem get_data_loop_clean (rows : list (list string)) :
  Forall (fun row => length row = 4%nat -> is_Some (parse_row row)) rows ->
  exists st,
    get_data_loop rows = Ok st
    /\ debug_log st = []
    /\ data st = foldl put_row [] (omap parse_row rows)
    /\ forall (i : nat) row u d v,
        rows !! i = Some row ->
        parse_row row = Some (u, d, v) ->
        (forall (j : nat) later v',
            (i < j)%nat -> rows !! j = Some later ->
            parse_row later <> Some (u, d, v')) ->
        record_of u d (data st) = Some v.
Proof.
  intros Hrows.
  destruct (get_data_rows_clean 0 rows
              (LoopState [] (Frame None None None None) []) Hrows) as [fr Hrun].
  eexists. split; [exact Hrun|]. split; [done|]. split; [done|]. simpl.
  intros i row u d v Hi Hp Hlater.
  apply list_elem_of_split_length in Hi as (rows1 & rows2 & -> & ->).
  rewrite omap_app, foldl_app. simpl. rewrite Hp. simpl.
  rewrite record_of_foldl_absent; [apply record_of_put_eq|].
  apply Forall_forall. intros [[u' d'] v'] Hin Heq. simpl in Heq.
  injection Heq as -> ->.
  apply list_elem_of_omap in Hin as (later & Hin & Hp').
  apply list_elem_of_lookup in Hin as [j Hj].
  apply (Hlater (length rows1 + S j)%nat later v'); [lia| |done].
  rewrite lookup_app_r by lia.
  by replace (length rows1 + S j - length rows1)%nat with (S j) by lia.
Qed.

Lemma get_data_loop_clean_witness :
  exists st,
    get_data_loop
      [["user_id"; "date"]; ["1"; "2023-01-02"; "09:00:00"; "17:00:00"];
       ["1"; "2023-01-02"; "10:00:00"; "18:00:00"]; []]%string = Ok st
    /\ record_of 1 (datetime.Date 2023 1 2) (data st)
       = Some (StartEnd (datetime.Time 10 0 0) (datetime.Time 18 0 0)).
Proof.
  destruct (get_data_loop_clean
              [["user_id"; "date"]; ["1"; "2023-01-02"; "09:00:00"; "17:00:00"];
               ["1"; "2023-01-02"; "10:00:00"; "18:00:00"]; []]%string)
    as (st & Hrun & _ & _ & Hlast).
  - repeat constructor; intros Hlen; try discriminate Hlen; by eexists.
  - exists st. split; [exact Hrun|].
    apply (Hlast 2%nat ["1"; "2023-01-02"; "10:00:00"; "18:00:00"]%string);
      [reflexivity | reflexivity |].
    intros [|[|[|[|j]]]] later v' Hj Hl; try lia; try discriminate Hl.
    injection Hl as <-. discriminate.
Defined.

Lemma get_data_rows_log i rows st st' :
  get_data_rows i rows st = Ok st' ->
  debug_log st' = debug_log st ++ failing_rows i rows.
Proof.
  revert i st. induction rows as [|row rows IH]; intros i st;
    cbn [get_data_rows failing_rows].
  - intros [= <-]. by rewrite app_nil_r.
  - destruct (decide (length row = 4%nat)) as [Hlen|Hlen].
    + rewrite get_data_row_four by done.
      destruct (parse_row row) as [[[u d] v]|] eqn:Hp.
      * intros Hrun%IH. rewrite Hrun.
        by rewrite decide_False by (by intros [_ ?]).
      * destruct row as [|r0 [|r1 [|r2 [|r3 [|r4 row]]]]]; try discriminate Hlen.
        cbv zeta. destruct (store _ _) as [data'|e]; [|done].
        intros Hrun%IH. rewrite Hrun.
        rewrite decide_True by done. cbn [debug_log]. by rewrite <- app_assoc.
    + rewrite get_data_row_other by done.
      intros Hrun%IH. rewrite Hrun.
      by rewrite decide_False by (by intros [? _]).
Qed.

Lemma failing_rows_elem i rows k :
  k ∈ failing_rows i rows
  <-> exists row, (i <= k)%nat /\ rows !! (k - i)%nat = Some row
        /\ length row = 4%nat /\ parse_row row = None.
Proof.
  revert i. induction rows as [|row rows IH]; intros i; cbn [failing_rows].
  - split; [by intros ?%elem_of_nil | by intros (row & _ & ? & _)].
  - rewrite elem_of_app, IH. split.
    + intros [Hk|(row' & Hle & Hk & Hrow')].
      * case_decide as Hrow; [|by apply elem_of_nil in Hk].
        apply list_elem_of_singleton in Hk as ->.
        exists row. rewrite Nat.sub_diag. split; [lia|]. by split.
      * exists row'. split; [lia|]. split; [|done].
        by replace (k - i)%nat with (S (k - S i)) by lia.
    + intros (row' & Hle & Hk & Hrow').
      destruct (decide (k = i)) as [->|Hne].
      * left. rewrite Nat.sub_diag in Hk. injection Hk as ->.
        rewrite decide_True by done. by apply list_elem_of_singleton.
      * right. exists row'. split; [lia|]. split; [|done].
        by replace (k - i)%nat with (S (k - S i)) in Hk by lia.
Qed.

(** X8. When the load returns, the rows handed to [log.debug] are exactly
    the four-field rows that do not parse, each once, in file order and
    under its index among all rows of the file, skipped lines counted. *)
Theorem get_data_loop_log (rows : list (list string)) (st : loop_state) :
  get_data_loop rows = Ok st ->
  debug_log st = failing_rows 0 rows
  /\ forall k : nat,
      k ∈ debug_log st
      <-> exists row, rows !! k = Some row /\ length row = 4%nat
            /\ parse_row row = None.
Proof.
  intros Hrun. apply get_data_rows_log in Hrun. simpl in Hrun.
  split; [done|]. intros k. rewrite Hrun, failing_rows_elem.
  rewrite Nat.sub_0_r. split.
  - intros (row & _ & H). by exists row.
  - intros (row & H). exists row. split; [lia | done].
Qed.

Lemma get_data_loop_log_witness :
  exists st,
    get_data_loop
      [["header"]; ["1"; "2023-01-02"; "09:00:00"; "17:00:00"];
       ["1"; "2023-01-03"; "09:00:00"; "25:00:00"]]%string = Ok st
    /\ debug_log st = [2%nat].
Proof.
  eexists. split; [reflexivity|].
  exact (proj1 (get_data_loop_log
    [["header"]; ["1"; "2023-01-02"; "09:00:00"; "17:00:00"];
     ["1"; "2023-01-03"; "09:00:00"; "25:00:00"]]%string _ eq_refl)).
Defined.

Lemma strptime_date_valid s d :
  strptime_date s = Ok d -> datetime.valid_date d = true.
Proof.
  unfold strptime_date.
  destruct (split_on "-" (list_ascii_of_string s)) as [|y [|m [|dd [|? ?]]]]; try done.
  destruct (field 4 4 y) as [y'|]; [|done]. simpl.
  destruct (field 1 2 m ≫= in_range 1 12) as [m'|]; [|done]. simpl.
  destruct (day_field dd ≫= in_range 1 31) as [d'|]; [|done]. simpl.
  destruct (datetime.valid_date _) eqn:Hv; [|done]. by intros [= <-].
Qed.

Lemma strptime_time_valid s t :
  strptime_time s = Ok t -> datetime.valid_time t = true.
Proof.
  unfold strptime_time.
  destruct (split_on ":" (list_ascii_of_string s)) as [|h [|m [|sec [|? ?]]]]; try done.
  destruct (field 1 2 h ≫= in_range 0 23) as [h'|]; [|done]. simpl.
  destruct (field 1 2 m ≫= in_range 0 59) as [m'|]; [|done]. simpl.
  destruct (field 1 2 sec ≫= in_range 0 61) as [s'|]; [|done]. simpl.
  destruct (datetime.valid_time _) eqn:Hv; [|done]. by intros [= <-].
Qed.

Lemma try_body_invariant row0 row1 row2 row3 fr :
  frame_invariant fr -> frame_invariant (try_body row0 row1 row2 row3 fr).1.
Proof.
  intros (Hd & Hs & He). unfold try_body.
  destruct (py_int row0) as [u|]; [|done].
  destruct (strptime_date row1) as [d|] eqn:Ed; [|done].
  apply strptime_date_valid in Ed.
  destruct (strptime_time row2) as [s|] eqn:Es;
    [|by split; [intros ? [= <-]|]].
  apply strptime_time_valid in Es.
  destruct (strptime_time row3) as [e|] eqn:Ee;
    [|by split; [intros ? [= <-]|split; [intros ? [= <-]|]]].
  apply strptime_time_valid in Ee.
  by split; [intros ? [= <-]|split; intros ? [= <-]].
Qed.

Lemma put_invariant u d v data :
  data_invariant data -> valid_record (d, v) -> data_invariant (put u d v data).
Proof.
  intros [Hnd Hall] Hv. unfold put. split; [by apply dict_set_NoDup|].
  apply dict_set_Forall; [done|]. simpl.
  split; [apply dict_set_nonempty|].
  destruct (dict_get u data) as [items|] eqn:Hget; simpl.
  - apply dict_get_Some_elem in Hget.
    rewrite Forall_forall in Hall. destruct (Hall _ Hget) as (_ & Hnd' & Hall').
    split; [by apply dict_set_NoDup | by apply dict_set_Forall].
  - split; [apply NoDup_singleton | by apply Forall_cons].
Qed.

Lemma store_invariant fr data data' :
  frame_invariant fr -> data_invariant data ->
  store fr data = Ok data' -> data_invariant data'.
Proof.
  intros (Hd & Hs & He) Hdata. unfold store.
  destruct (v_start fr) as [s|]; [|done]. destruct (v_end fr) as [e|]; [|done].
  destruct (user_id fr) as [u|]; [|done]. destruct (date fr) as [d|]; [|done].
  simpl. intros [= <-]. apply put_invariant; [done|]. split; eauto.
Qed.

Lemma get_data_row_invariant i row st st' :
  frame_invariant (locals st) -> data_invariant (data st) ->
  get_data_row i row st = Ok st' ->
  frame_invariant (locals st') /\ data_invariant (data st').
Proof.
  intros Hfr Hdata. unfold get_data_row.
  destruct row as [|r0 [|r1 [|r2 [|r3 [|r4 row]]]]];
    try (by intros [= <-]).
  pose proof (try_body_invariant r0 r1 r2 r3 (locals st) Hfr) as Hfr'.
  destruct (try_body r0 r1 r2 r3 (locals st)) as [fr' r]. simpl in Hfr'.
  assert (Hstore : forall log,
    (data' ← store fr' (data st); Ok (LoopState data' fr' log)) = Ok st' ->
    frame_invariant (locals st') /\ data_invariant (data st')).
  { intros log. destruct (store fr' (data st)) as [data'|e] eqn:Hs; [|done].
    simpl. intros [= <-]. simpl. split; [done|]. by eapply store_invariant. }
  destruct r as [[]|[]]; simpl; try done; apply Hstore.
Qed.

Lemma get_data_rows_invariant i rows st st' :
  frame_invariant (locals st) -> data_invariant (data st) ->
  get_data_rows i rows st = Ok st' -> data_invariant (data st').
Proof.
  revert i st. induction rows as [|row rows IH]; intros i st Hfr Hdata; simpl.
  - by intros [= <-].
  - destruct (get_data_row i row st) as [st1|e] eqn:Hrow; [simpl|done].
    destruct (get_data_row_invariant i row st st1 Hfr Hdata Hrow).
    by apply IH.
Qed.

(** X9. Whatever the file holds, a load that returns gives a structure
    in which the user ids are distinct, every user has at least one
    record, a user's dates are distinct, and every record has a calendar
    date with month in 1..12 and a day that the month has, and start and
    end times with hour below 24 and minute and second below 60. *)
Theorem get_data_loop_invariant (rows : list (list string)) (st : loop_state) :
  get_data_loop rows = Ok st ->
  NoDup (data st).*1
  /\ forall u items,
      dict_get u (data st) = Some items ->
      items <> [] /\ NoDup items.*1 /\ valid_dates items
      /\ Forall (fun x => datetime.valid_time (start x.2) = true
                          /\ datetime.valid_time (end_ x.2) = true) items.
Proof.
  intros Hrun. apply get_data_rows_invariant in Hrun as [Hnd Hall].
  - split; [done|]. intros u items Hget%dict_get_Some_elem.
    rewrite Forall_forall in Hall. destruct (Hall _ Hget) as (Hne & Hnd' & Hv).
    split; [done|]. split; [done|]. unfold valid_dates.
    split; eapply Forall_impl; try exact Hv; by intros x (? & ? & ?).
  - by repeat split.
  - split; [apply NoDup_nil_2 | constructor].
Qed.

Lemma get_data_loop_invariant_witness :
  exists st items,
    get_data_loop example_rows = Ok st
    /\ dict_get 1 (data st) = Some items
    /\ valid_dates items.
Proof.
  eexists _, _. split; [reflexivity|]. split; [reflexivity|].
  exact (proj1 (proj2 (proj2
    (proj2 (get_data_loop_invariant example_rows _ eq_refl) 1 _ eq_refl)))).
Defined.

Lemma store_ok_inv fr data data' :
  store fr data = Ok data' ->
  exists u d s e,
    fr = Frame (Some u) (Some d) (Some s) (Some e)
    /\ data' = put u d (StartEnd s e) data.
Proof.
  unfold store. destruct fr as [[u|] [d|] [s|] [e|]]; simpl; try done.
  intros [= <-]. by exists u, d, s, e.
Qed.

Lemma get_data_row_stored i row st st' :
  length row = 4%nat ->
  get_data_row i row st = Ok st' ->
  exists u d s e,
    locals st' = Frame (Some u) (Some d) (Some s) (Some e)
    /\ data st' = put u d (StartEnd s e) (data st).
Proof.
  intros Hlen. rewrite get_data_row_four by done.
  destruct (parse_row row) as [[[u d] [s e]]|] eqn:Hp.
  - intros [= <-]. by exists u, d, s, e.
  - destruct row as [|r0 [|r1 [|r2 [|r3 [|r4 row]]]]]; try discriminate Hlen.
    cbv zeta. destruct (store _ _) as [data'|] eqn:Hs; [|done].
    simpl. intros [= <-]. simpl. by apply store_ok_inv.
Qed.

(** X10. A four-field row whose user id does not parse, coming after
    another four-field row, is logged and changes nothing else: no local
    is assigned, so the assignment into [data] repeats the one the row
    before made. *)
Theorem get_data_row_bad_user_id (i j : nat) (row : list string)
  (row0 row1 row2 row3 : string) (st st1 : loop_state) (e : exn) :
  length row = 4%nat ->
  get_data_row i row st = Ok st1 ->
  py_int row0 = Raise e ->
  get_data_row j [row0; row1; row2; row3] st1
  = Ok (LoopState (data st1) (locals st1) (debug_log st1 ++ [j])).
Proof.
  intros Hlen Hrow Hraise.
  destruct (get_data_row_stored i row st st1 Hlen Hrow) as (u & d & s & e' & Hfr & Hdata).
  assert (e = ValueError) as -> by (by eapply of_option_raise).
  assert (Hs : store (locals st1) (data st1) = Ok (data st1)).
  { destruct (store_bound (locals st1) (data st1)) as (u1 & d1 & s1 & e1 & Hfr1 & ->).
    - rewrite Hfr. unfold bound. simpl. eauto 10.
    - rewrite Hfr in Hfr1. injection Hfr1 as <- <- <- <-.
      by rewrite Hdata, put_idemp. }
  unfold get_data_row, try_body. rewrite Hraise. cbv beta iota zeta.
  by rewrite Hs.
Qed.

Lemma get_data_row_bad_user_id_witness :
  exists st1,
    get_data_row 0 ["1"; "2023-01-02"; "09:00:00"; "17:00:00"]%string
      (LoopState [] (Frame None None None None) []) = Ok st1
    /\ get_data_row 1 ["one"; "2023-01-03"; "10:00:00"; "18:00:00"]%string st1
       = Ok (LoopState (data st1) (locals st1) [1%nat]).
Proof.
  eexists. split; [reflexivity|].
  exact (get_data_row_bad_user_id 0 1
           ["1"; "2023-01-02"; "09:00:00"; "17:00:00"]%string
           "one" "2023-01-03" "10:00:00" "18:00:00"
           (LoopState [] (Frame None None None None) []) _ ValueError
           eq_refl eq_refl eq_refl).
Defined.

(** X11. One row, parsed or not, changes at most one record of [data],
    the one under the user id and date that the locals hold after it,
    and removes none: every other (user, date) pair reads as before, and
    a pair that held a record still holds one. *)
Theorem get_data_row_one_record (i : nat) (row : list string)
  (st st' : loop_state) :
  get_data_row i row st = Ok st' ->
  (forall u d,
      (user_id (locals st'), date (locals st')) <> (Some u, Some d) ->
      record_of u d (data st') = record_of u d (data st))
  /\ (forall u d,
        is_Some (record_of u d (data st)) -> is_Some (record_of u d (data st'))).
Proof.
  intros Hrow. destruct (decide (length row = 4%nat)) as [Hlen|Hlen].
  - destruct (get_data_row_stored i row st st' Hlen Hrow)
      as (u0 & d0 & s & e & -> & ->). simpl. split.
    + intros u d Hne. apply record_of_put_ne. congruence.
    + intros u d Hsome. destruct (decide ((u0, d0) = (u, d))) as [[= -> ->]|Hne].
      * rewrite record_of_put_eq. by eexists.
      * by rewrite record_of_put_ne.
  - rewrite get_data_row_other in Hrow by done. by injection Hrow as <-.
Qed.

Lemma get_data_row_one_record_witness :
  record_of 1 (datetime.Date 2023 1 2)
    [(1, [(datetime.Date 2023 1 2,
           StartEnd (datetime.Time 9 0 0) (datetime.Time 17 0 0))]);
     (2, [(datetime.Date 2023 1 2,
           StartEnd (datetime.Time 9 0 0) (datetime.Time 17 0 0))])]
  = record_of 1 (datetime.Date 2023 1 2)
      [(1, [(datetime.Date 2023 1 2,
             StartEnd (datetime.Time 9 0 0) (datetime.Time 17 0 0))])].
Proof.
  refine (proj1 (get_data_row_one_record 1
    ["2"; "2023-13-40"; "10:00:00"; "18:00:00"]%string
    (LoopState
       [(1, [(datetime.Date 2023 1 2,
              StartEnd (datetime.Time 9 0 0) (datetime.Time 17 0 0))])]
       (Frame (Some 1) (Some (datetime.Date 2023 1 2))
          (Some (datetime.Time 9 0 0)) (Some (datetime.Time 17 0 0))) [])
    _ eq_refl) 1 (datetime.Date 2023 1 2) _).
  discriminate.
Defined.

(** ** More on the directory loader *)

Lemma dict_get_is_Some_keys {K V : Type} `{EqDecision K} (k : K) (d : dict K V) :
  is_Some (dict_get k d) <-> k ∈ d.*1.
Proof.
  induction d as [|[k' v'] d IH]; simpl.
  - split; [by intros [? ?] | by intros ?%elem_of_nil].
  - rewrite elem_of_cons. destruct (decide (k = k')) as [->|Hne]; simpl.
    + split; [by left | by eexists].
    + rewrite IH. split; [by right | by intros [?|?]].
Qed.

Lemma find_text_outcome (e : element) (name : string) :
  find_text (Some e) name
  = if has_child name e then Ok (find name e ≫= text) else Raise AttributeError.
Proof.
  unfold find_text, has_child. simpl.
  by destruct (find name e) as [child|].
Qed.

Lemma get_data_xml_user_outcome (server : option element) (user : element)
  (result : directory) :
  match get_data_xml_user server user result with
  | Ok result' =>
      server_ok server && loadable_user user = true
      /\ exists info, result' = dict_set (id_of user) info result
  | Raise e =>
      server_ok server && loadable_user user = false
      /\ (e = AttributeError \/ e = KeyError \/ e = ValueError)
  end.
Proof.
  unfold get_data_xml_user, server_ok, loadable_user, id_of.
  destruct server as [server|]; [|by split; [|tauto]].
  rewrite !find_text_outcome.
  destruct (has_child "protocol" server); simpl; [|by split; [|tauto]].
  destruct (has_child "host" server); simpl; [|by split; [|tauto]].
  destruct (has_child "port" server); simpl; [|by split; [|tauto]].
  destruct (has_child "avatar" user); simpl; [|by split; [|tauto]].
  destruct (has_child "name" user); simpl; [|by split; [|tauto]].
  destruct (dict_get "id"%string (attrib user)) as [id|]; simpl;
    [|by split; [|tauto]].
  destruct (py_int id) as [key|e] eqn:Hid; simpl.
  - split; [done|]. by eexists.
  - apply of_option_raise in Hid as ->. split; [done | tauto].
Qed.

Lemma get_data_xml_users_outcome (server : option element)
  (users : list element) (result : directory) :
  match get_data_xml_users server users result with
  | Ok result' =>
      (users = [] \/ server_ok server = true)
      /\ forallb loadable_user users = true
      /\ (forall k, k ∈ result'.*1
            <-> k ∈ result.*1 \/ exists user, user ∈ users /\ id_of user = k)
      /\ (NoDup result.*1 -> NoDup result'.*1)
  | Raise e =>
      users <> []
      /\ server_ok server && forallb loadable_user users = false
      /\ (e = AttributeError \/ e = KeyError \/ e = ValueError)
  end.
Proof.
  revert result. induction users as [|user users IH]; intros result; simpl.
  - split; [by left|]. split; [done|]. split; [|done].
    intros k. split; [by left|]. intros [?|(user & ?%elem_of_nil & _)]; done.
  - pose proof (get_data_xml_user_outcome server user result) as Hu.
    destruct (get_data_xml_user server user result) as [result1|e]; simpl.
    + destruct Hu as ([Hs Hl]%andb_prop & info & ->).
      specialize (IH (dict_set (id_of user) info result)).
      destruct (get_data_xml_users server users _) as [result'|e].
      * destruct IH as (_ & Hall & Hkeys & Hnd).
        split; [by right|]. split; [by rewrite Hl|]. split.
        -- intros k. rewrite Hkeys, dict_set_keys.
           setoid_rewrite elem_of_cons.
           destruct (decide (id_of user ∈ result.*1)) as [Hin|Hin].
           ++ split.
              ** intros [?|(u & ? & ?)]; [by left|].
                 right. exists u. split; [by right | done].
              ** intros [?|(u & [-> | ?] & <-)]; [by left | by left |].
                 right. by exists u.
           ++ rewrite elem_of_app, list_elem_of_singleton. split.
              ** intros [[?| ->]|(u & ? & ?)]; [by left | |].
                 --- right. exists user. split; [by left | done].
                 --- right. exists u. split; [by right | done].
              ** intros [?|(u & [-> | ?] & <-)];
                   [by left; left | by left; right |].
                 right. by exists u.
        -- intros Hr. by apply Hnd, dict_set_NoDup.
      * destruct IH as (_ & Hfalse & He). split; [done|]. split; [|done].
        rewrite Hs, Hl in *. done.
    + destruct Hu as [Hfalse He]. split; [done|]. split; [|done].
      apply andb_false_iff in Hfalse as [-> | ->]; [done|].
      by rewrite andb_false_r.
Qed.

(** X12. [get_data_xml] loads all of a document or nothing. It returns a
    result exactly for a document with a [users] child whose children
    all have an [avatar] child, a [name] child and an integer [id]
    attribute, and with a [server] child that has [protocol], [host] and
    [port] children; one incomplete user makes the whole call raise. A
    [users] element without children loads as the empty mapping even
    when there is no [server]. A missing [users] child raises
    [TypeError]; every other failure is an [AttributeError], [KeyError]
    or [ValueError]. *)
Theorem get_data_xml_root_outcome (root : element) :
  ((exists result, get_data_xml_root root = Ok result) <-> loadable root = true)
  /\ (get_data_xml_root root = Raise TypeError <-> find "users" root = None)
  /\ (forall e, get_data_xml_root root = Raise e ->
        (e = TypeError \/ e = AttributeError \/ e = KeyError \/ e = ValueError))
  /\ (forall users, find "users" root = Some users -> children users = [] ->
        get_data_xml_root root = Ok []).
Proof.
  unfold get_data_xml_root, loadable.
  destruct (find "users" root) as [users|].
  - pose proof (get_data_xml_users_outcome (find "server" root) (children users) [])
      as H.
    destruct (get_data_xml_users (find "server" root) (children users) [])
      as [result|e] eqn:Hrun.
    + destruct H as (Hs & Hall & _). split.
      { split; [|by eauto]. intros _.
        destruct (children users) as [|user us] eqn:Hc; [done|].
        destruct Hs as [? | ->]; [done|]. by rewrite Hall. }
      split; [done|]. split; [done|].
      intros ? [= <-] Hc. rewrite Hc in Hrun. simpl in Hrun. congruence.
    + destruct H as (Hne & Hfalse & He). split.
      { split; [by intros [? ?]|].
        destruct (children users) as [|user us] eqn:Hc; [done|]. congruence. }
      split.
      { split; [|done]. intros [= ->]. by destruct He as [?|[?|?]]. }
      split; [intros ? [= <-]; tauto|].
      intros ? [= <-] Hc. by rewrite Hc in Hne.
  - split; [split; [by intros [? ?]|done]|]. split; [done|].
    split; [intros ? [= <-]; tauto | done].
Qed.

(** X13. In a loaded directory the keys are distinct, and they are
    exactly the integers that the [id] attributes of the user elements
    parse to: an id is a key if and only if some user element has it. So
    the mapping never has more entries than the document has users. *)
Theorem get_data_xml_root_keys (root users : element) (result : directory) :
  find "users" root = Some users ->
  get_data_xml_root root = Ok result ->
  NoDup result.*1
  /\ (forall k, is_Some (dict_get k result)
        <-> exists user, user ∈ children users /\ id_of user = k)
  /\ (length result <= length (children users))%nat.
Proof.
  unfold get_data_xml_root. intros -> Hrun.
  pose proof (get_data_xml_users_outcome (find "server" root) (children users) [])
    as H.
  rewrite Hrun in H. destruct H as (_ & _ & Hkeys & Hnd).
  specialize (Hnd (NoDup_nil_2)).
  assert (Hk : forall k, k ∈ result.*1
            <-> exists user, user ∈ children users /\ id_of user = k).
  { intros k. rewrite Hkeys. split; [|by right].
    by intros [?%elem_of_nil|?]. }
  split; [done|]. split; [by intros k; rewrite dict_get_is_Some_keys|].
  rewrite <- (length_fmap fst result), <- (length_fmap id_of (children users)).
  apply submseteq_length, NoDup_submseteq; [done|].
  intros k (user & Hin & <-)%Hk. by apply list_elem_of_fmap_2.
Qed.

Lemma get_data_xml_root_keys_witness :
  exists result,
    get_data_xml_root example_document = Ok result
    /\ (length result <= 1)%nat.
Proof.
  eexists. split; [reflexivity|].
  refine (proj2 (proj2 (get_data_xml_root_keys example_document
    (Element "users" [] None
       [Element "user" [("id", "1")] None
          [Element "avatar" [] (Some "/api/images/users/1") [];
           Element "name" [] (Some "Jan K.") []]])%string _ eq_refl eq_refl))).
Defined.

(** ** More on the cache layer *)

Section MemoizeMore.
Context {Args V : Type}.
Implicit Types (f g : function Args V) (st : process Args V) (now : float).

Lemma memoize_other_key duration g args now w st (k : string) :
  k <> __name__ g ->
  CACHE (__memoize duration g args now w st).2 !! k = CACHE st !! k.
Proof.
  intros Hk. unfold __memoize.
  destruct (CACHE st !! __name__ g ≫= _) as [v|]; [done|].
  destruct (call g args w) as [result|e]; simpl; [|done].
  by rewrite lookup_insert_ne.
Qed.

Lemma memoize_result_depends duration f args now w st st' :
  CACHE st !! __name__ f = CACHE st' !! __name__ f ->
  (__memoize duration f args now w st).1 = (__memoize duration f args now w st').1.
Proof.
  intros Heq. unfold __memoize. rewrite Heq.
  destruct (CACHE st' !! __name__ f ≫= _) as [v|]; [done|].
  by destruct (call f args w).
Qed.

Lemma run_calls_hits f (cs : list (Args * float * world)) st entry :
  CACHE st !! __name__ f = Some entry ->
  Forall (fun c => (c.1.2 <? time entry)%float = true) cs ->
  run_calls 600 f cs st = (replicate (length cs) (Ok (value entry)), st).
Proof.
  intros Hentry Hcs.
  induction Hcs as [|[[args now] w] cs Hnow _ IH]; simpl; [done|].
  rewrite (memoize_hit 600 f args now w st entry) by done.
  by rewrite IH.
Qed.

End MemoizeMore.

(** X14. Memoized functions with different names do not disturb each
    other: a call of one leaves the entry of the other as it was, so what
    the other returns next is what it would have returned without that
    call. The two loaders, [get_data] and [get_data_xml], have different
    names. *)
Theorem memoize_independent {Args V : Type} (f g : function Args V)
  (st : process Args V) (args args' : Args) (now now' : float) (w w' : world) :
  __name__ f <> __name__ g ->
  let st' := (__memoize 600 g args now w st).2 in
  CACHE st' !! __name__ f = CACHE st !! __name__ f
  /\ (__memoize 600 f args' now' w' st').1 = (__memoize 600 f args' now' w' st).1
  /\ __name__ get_data_function <> __name__ get_data_xml_function.
Proof.
  intros Hne st'.
  assert (CACHE st' !! __name__ f = CACHE st !! __name__ f) as Heq
    by (by apply memoize_other_key).
  split; [done|]. split; [by apply memoize_result_depends | done].
Qed.

Lemma memoize_independent_witness :
  (get_data 1001 (World (Ok []) (Raise IOError))
     (get_data_xml 1000 (World (Ok []) (Ok example_document)) (Process ∅ [])).2).1
  = (get_data 1001 (World (Ok []) (Raise IOError)) (Process ∅ [])).1.
Proof.
  exact (proj1 (proj2 (memoize_independent get_data_function get_data_xml_function
    (Process ∅ []) () () 1000 1001
    (World (Ok []) (Ok example_document)) (World (Ok []) (Raise IOError))
    ltac:(discriminate)))).
Defined.

(** X15. The cache tells functions apart by name only. When a function
    [g] has the name of a function [f] that was loaded at [t0], a call of
    [g] with a reading below the stored stamp, the binary64 sum
    [t0 + 600], returns the value that [f] computed, and [g] itself is
    not called. *)
Theorem memoize_shared_name {Args V : Type} (f g : function Args V)
  (st : process Args V) (args0 args : Args) (w0 w : world) (t0 t : float) (v : V) :
  __name__ g = __name__ f ->
  (forall entry, CACHE st !! __name__ f = Some entry ->
                 (t0 <? time entry)%float = false) ->
  call f args0 w0 = Ok v ->
  (t <? t0 + 600)%float = true ->
  let st0 := (__memoize 600 f args0 t0 w0 st).2 in
  __memoize 600 g args t w st0 = (Ok v, st0).
Proof.
  intros Hname Hstale Hload Ht. rewrite memoize_miss by exact Hstale.
  rewrite Hload, expiry_600. simpl.
  apply (memoize_hit 600 g args t w _ (CacheEntry (t0 + 600)%float v)); [|done].
  simpl. rewrite Hname. apply lookup_insert_eq.
Qed.

Lemma memoize_shared_name_witness :
  __memoize 600 (Function "square" (fun n _ => Ok (n + 1))) 4 1001
    (World (Ok []) (Raise IOError))
    (__memoize 600 example_square 3 1000 (World (Ok []) (Raise IOError))
       (Process ∅ [])).2
  = (Ok 9,
     (__memoize 600 example_square 3 1000 (World (Ok []) (Raise IOError))
        (Process ∅ [])).2).
Proof.
  apply (memoize_shared_name example_square
           (Function "square" (fun n _ => Ok (n + 1))) (Process ∅ []) 3 4
           (World (Ok []) (Raise IOError)) (World (Ok []) (Raise IOError))
           1000 1001 9).
  - reflexivity.
  - intros entry Hentry. vm_compute in Hentry. discriminate Hentry.
  - reflexivity.
  - by vm_compute.
Defined.

(** X16. A loader that does not raise is called at most once over a run
    of calls that the code itself counts as one window, that is when
    every reading of the run is below the stamp, reading + 600 in
    binary64, that a load at any reading of the run stores; this holds
    whatever the cache held before and in whatever order the readings
    come, and every one of those calls returns a value. *)
Theorem memoize_one_load_per_window {Args V : Type} (f : function Args V)
  (st : process Args V) (cs : list (Args * float * world)) :
  (forall c c', c ∈ cs -> c' ∈ cs -> (c'.1.2 <? c.1.2 + 600)%float = true) ->
  Forall (fun c => exists v, call f c.1.1 c.2 = Ok v) cs ->
  (length (calls (run_calls 600 f cs st).2) <= S (length (calls st)))%nat
  /\ Forall (fun r => exists v, r = Ok v) (run_calls 600 f cs st).1.
Proof.
  intros Hwin Hok. revert st.
  induction cs as [|[[args now] w] cs IH]; intros st.
  - simpl. split; [lia | constructor].
  - apply Forall_cons in Hok as [[v Hv] Hok]. simpl in Hv.
    assert (IH' := IH (fun c c' Hc Hc' =>
                         Hwin c c' (list_elem_of_further _ _ _ Hc)
                           (list_elem_of_further _ _ _ Hc')) Hok).
    cbn [run_calls].
    assert (Hcases :
      (exists entry, CACHE st !! __name__ f = Some entry
                     /\ (now <? time entry)%float = true)
      \/ stale (__name__ f) now st).
    { unfold stale. destruct (CACHE st !! __name__ f) as [entry|]; [|by right].
      destruct (now <? time entry)%float eqn:Hlt; [left; eauto|].
      right. by intros ? [= <-]. }
    destruct Hcases as [(entry & Hentry & Hlt)|Hstale].
    + rewrite (memoize_hit 600 f args now w st entry) by done.
      specialize (IH' st). destruct (run_calls 600 f cs st) as [rs st'].
      simpl in *. split; [tauto|]. constructor; [by eexists | tauto].
    + rewrite memoize_miss by exact Hstale.
      rewrite Hv, expiry_600. cbv beta iota zeta.
      rewrite (run_calls_hits f cs _ (CacheEntry (now + 600)%float v)).
      * simpl. rewrite length_app. simpl. split; [lia|].
        constructor; [by eexists|]. apply Forall_replicate. by eexists.
      * apply lookup_insert_eq.
      * apply Forall_forall. intros c Hc. simpl.
        apply (Hwin (args, now, w) c); [by left | by right].
Qed.

Lemma memoize_one_load_per_window_witness :
  (length (calls (run_calls 600 example_square
                    [(3%Z, 1000%float, World (Ok []) (Raise IOError));
                     (4%Z, 1300%float, World (Ok []) (Raise IOError));
                     (5%Z, 1001%float, World (Ok []) (Raise IOError))]
                    (Process ∅ [])).2) <= 1)%nat.
Proof.
  refine (proj1 (memoize_one_load_per_window example_square (Process ∅ [])
    [(3%Z, 1000%float, World (Ok []) (Raise IOError));
     (4%Z, 1300%float, World (Ok []) (Raise IOError));
     (5%Z, 1001%float, World (Ok []) (Raise IOError))] _ _)).
  - intros c c' Hc Hc'.
    repeat (apply elem_of_cons in Hc as [->|Hc]);
      try (by apply elem_of_nil in Hc);
      repeat (apply elem_of_cons in Hc' as [->|Hc']);
      try (by apply elem_of_nil in Hc'); by vm_compute.
  - repeat constructor; by eexists.
Defined.

Lemma memoize_typed (f : function () loaded) (P : loaded -> Prop)
  now w st k :
  (forall v, call f () w = Ok v -> P v) ->
  (forall entry, CACHE st !! k = Some entry -> P (value entry)) ->
  (forall v, (__memoize 600 f () now w st).1 = Ok v -> k = __name__ f -> P v)
  /\ (k = __name__ f ->
      forall entry, CACHE (__memoize 600 f () now w st).2 !! k = Some entry ->
                    P (value entry)).
Proof.
  intros Hf Hst. unfold __memoize.
  destruct (CACHE st !! __name__ f) as [entry|] eqn:Hentry; simpl.
  - destruct (now <? time entry)%float.
    + split; [intros v [= <-] ->; eauto | intros ->; eauto].
    + destruct (call f () w) as [v|e] eqn:Hcall; simpl.
      * split; [intros ? [= <-] _; eauto|]. intros -> entry'.
        rewrite lookup_insert_eq. intros [= <-]. eauto.
      * split; [done | intros ->; eauto].
  - destruct (call f () w) as [v|e] eqn:Hcall; simpl.
    + split; [intros ? [= <-] _; eauto|]. intros -> entry'.
      rewrite lookup_insert_eq. intros [= <-]. eauto.
    + split; [done | intros ->; eauto].
Qed.

(** X17. Each loader finds only its own kind of value in the cache. If
    the entry under "get_data" holds attendance data and the entry under
    "get_data_xml" holds a directory, whenever they are there, then a
    call of either loader keeps it so, and what [get_data] returns is
    attendance data and what [get_data_xml] returns is a directory. *)
Theorem loaders_keep_cache_typed (st : process () loaded) (now : float) (w : world) :
  cache_typed (CACHE st) ->
  (cache_typed (CACHE (get_data now w st).2)
   /\ forall v, (get_data now w st).1 = Ok v -> exists data, v = Attendance data)
  /\ (cache_typed (CACHE (get_data_xml now w st).2)
      /\ forall v, (get_data_xml now w st).1 = Ok v -> exists result, v = Users result).
Proof.
  intros [Hd Hx].
  assert (Hfd : forall v, call get_data_function () w = Ok v ->
                          exists data, v = Attendance data).
  { simpl. destruct (DATA_CSV w) as [rows|]; [simpl|done].
    destruct (get_data_loop rows); [simpl|done]. intros v [= <-]. by eexists. }
  assert (Hfx : forall v, call get_data_xml_function () w = Ok v ->
                          exists result, v = Users result).
  { simpl. destruct (DATA_XML w) as [root|]; [simpl|done].
    destruct (get_data_xml_root root); [simpl|done]. intros v [= <-]. by eexists. }
  unfold get_data, get_data_xml, memoize, _memoize. split.
  - destruct (memoize_typed get_data_function
                (fun v => exists data, v = Attendance data)
                now w st "get_data" Hfd Hd) as [Hres Hcache].
    split; [|by intros v Hv; apply Hres].
    split; [by apply Hcache|].
    intros entry. rewrite memoize_other_key by done. apply Hx.
  - destruct (memoize_typed get_data_xml_function
                (fun v => exists result, v = Users result)
                now w st "get_data_xml" Hfx Hx) as [Hres Hcache].
    split; [|by intros v Hv; apply Hres].
    split; [|by apply Hcache].
    intros entry. rewrite memoize_other_key by done. apply Hd.
Qed.

Lemma loaders_keep_cache_typed_witness :
  cache_typed
    (CACHE (get_data 1000 (World (Ok example_rows) (Ok example_document))
              (Process ∅ [])).2).
Proof.
  refine (proj1 (proj1 (loaders_keep_cache_typed (Process ∅ []) 1000
    (World (Ok example_rows) (Ok example_document)) _))).
  split; intros entry Hentry; vm_compute in Hentry; discriminate Hentry.
Defined.

(** ** How the aggregators agree *)

Lemma interval_of_zip (l : presence) :
  interval_of <$> l
  = zip_with Z.sub ((fun x => seconds_since_midnight (end_ x.2)) <$> l)
      ((fun x => seconds_since_midnight (start x.2)) <$> l).
Proof.
  induction l as [|x l IH]; [done|].
  rewrite !fmap_cons. cbn [zip_with]. by rewrite <- IH.
Qed.

(** X18. The two weekday aggregators work on the same entries: for each
    weekday, the intervals that [group_by_weekday] lists are, position by
    position, the differences between the end and the start seconds that
    [mean_time_of_presence] collects before averaging them. *)
Theorem group_by_weekday_matches_samples (items : presence) (w : nat) :
  (w < 7)%nat ->
  exists samples,
    dict_get (Z.of_nat w) (mean_time_of_presence_samples items) = Some samples
    /\ length (start samples) = length (end_ samples)
    /\ group_by_weekday items !! w
       = Some (zip_with Z.sub (end_ samples) (start samples)).
Proof.
  intros Hw. rewrite samples_on_weekday, group_by_weekday_lookup by done.
  exists (StartEnd (starts_on (Z.of_nat w) items) (ends_on (Z.of_nat w) items)).
  split; [by do 7 (destruct w as [|w]; [reflexivity|]); lia|].
  unfold starts_on, ends_on. simpl. split; [by rewrite !length_fmap|].
  f_equal. apply interval_of_zip.
Qed.

Lemma group_by_weekday_matches_samples_witness :
  exists samples,
    dict_get 0 (mean_time_of_presence_samples example_presence) = Some samples
    /\ group_by_weekday example_presence !! 0%nat
       = Some (zip_with Z.sub (end_ samples) (start samples)).
Proof.
  destruct (group_by_weekday_matches_samples example_presence 0 ltac:(lia))
    as (samples & Hget & _ & Hzip).
  by exists samples.
Defined.

(** ** Independence of the iteration order *)

Lemma foldl_add_Permutation (l l' : list Z) :
  l ≡ₚ l' -> forall a, foldl Z.add a l = foldl Z.add a l'.
Proof.
  induction 1 as [|x l l' _ IH|x y l|l1 l2 l3 _ IH1 _ IH2]; intros a; simpl.
  - done.
  - apply IH.
  - f_equal. lia.
  - by rewrite IH1.
Qed.

Lemma mean_Permutation (l l' : list Z) : l ≡ₚ l' -> mean l = mean l'.
Proof.
  intros Hp. unfold mean, sum, len.
  by rewrite (foldl_add_Permutation l l' Hp), (Permutation_length Hp).
Qed.

(** X19. [mean_by_month] does not depend on the order in which the
    mapping iterates: two inputs with the same entries in different
    orders give the same twelve means. *)
Theorem mean_by_month_order_independent (items items' : presence) :
  valid_dates items ->
  items ≡ₚ items' ->
  mean_by_month items = mean_by_month items'.
Proof.
  intros Hv Hp.
  assert (Hv' : valid_dates items') by (unfold valid_dates; by rewrite <- Hp).
  rewrite !mean_by_month_valid by done.
  apply list_fmap_ext. intros _ m _.
  apply mean_Permutation. unfold in_month. by rewrite Hp.
Qed.

Lemma mean_by_month_order_independent_witness :
  mean_by_month example_presence = mean_by_month (reverse example_presence).
Proof.
  apply mean_by_month_order_independent.
  - repeat constructor.
  - apply Permutation_swap.
Defined.

(** X20. [mean_time_of_presence] does not depend on the order in which
    the mapping iterates either: the same entries in another order give
    the same mean start and mean end for every weekday. *)
Theorem mean_time_of_presence_order_independent (items items' : presence) :
  items ≡ₚ items' ->
  mean_time_of_presence items = mean_time_of_presence items'.
Proof.
  intros Hp. unfold mean_time_of_presence. rewrite !samples_on_weekday.
  rewrite <- !list_fmap_compose. apply list_fmap_ext. intros _ w _. simpl.
  unfold starts_on, ends_on, on_weekday.
  f_equal; f_equal; apply mean_Permutation; by rewrite Hp.
Qed.

Lemma mean_time_of_presence_order_independent_witness :
  mean_time_of_presence example_presence
  = mean_time_of_presence (reverse example_presence).
Proof.
  apply mean_time_of_presence_order_independent. apply Permutation_swap.
Defined.
